(** * ge_tutorials_dag: a shallow embedding of [airflow/ge_tutorials_dag.py]

    The DAG file wires five Airflow tasks into a chain.  Three of them are
    Python callables defined in the file ([load_files_into_db],
    [publish_to_prod], [validate_analytical_output]); they talk to a database
    through SQLAlchemy, to the file system through pandas and to the
    validation engine of Great Expectations.

    The callables are embedded as computations in a state-and-exception
    monad over a [World]: the files, the database servers, the wall clock and
    the trace of calls that leave the process.  What the libraries do is
    either written out or taken as a parameter:

    - written out: the SQL statements the file sends, with the server's
      (PostgreSQL's) reading of [DROP TABLE IF EXISTS ... [CASCADE]] and
      [ALTER TABLE ... RENAME TO ...], each committed as it is executed;
      [DataFrame.rename]; what [DataFrame.to_sql] does before it reaches
      the server (its checks, and the one column it makes of labels that
      are the same) and the order of its statements; [os.path.join];
      [str.lower] on ASCII text; [strftime] and [str] of a datetime;
      Airflow's [PythonOperator] and [BashOperator], the [>>] of the
      dependency line, and a scheduler with the default trigger rule
      ([all_success]) and no retries;
    - parameters ([Externals]): pandas' parser of a CSV text, [str.lower]
      on text that is not ASCII, the server's answer to a table [to_sql]
      creates and fills, the three entry points of the validation engine,
      and the shell that runs [dbt].

    A cell of a frame or a table is a missing value, a bool, an int64, a
    uint64, a float64 or a string. *)

From Stdlib Require Import ZArith NArith Ascii String List Bool Lia.
From stdpp Require Import base option list strings gmap fin_maps.

Local Open Scope string_scope.
Local Open Scope list_scope.

(** ** Python values and exceptions *)

Record DateTime := mkDateTime {
  dt_year : N; dt_month : N; dt_day : N;
  dt_hour : N; dt_minute : N; dt_second : N;
  dt_microsecond : N;
  dt_utcoffset : option (bool * N * N)   (* tzinfo: sign (true = "+"), hours, minutes *)
}.

(** A row of Airflow's [dag_run] table, as the callables see it. *)
Record DagRun := mkDagRun {
  run_id : string;
  execution_date : DateTime;
  start_date : DateTime
}.

#[warnings="-register-all"]
Inductive pyobj :=
| PyNone
| PyBool (b : bool)
| PyInt (z : Z)
| PyStr (s : string)
| PyDagRun (dr : DagRun)
| PyTaskInstance (xcom : list (string * string * pyobj)).  (* what [ti.xcom_pull] can see *)

Inductive exn :=
| KeyError (key : string)
| TypeError (msg : string)
| AttributeError (msg : string)
| ValueError (msg : string)
| FileNotFoundError (path : string)
| ParserError (msg : string)
| EmptyDataError (msg : string)
| OperationalError (msg : string)      (* sqlalchemy.exc: no connection *)
| ProgrammingError (msg : string)      (* sqlalchemy.exc: the statement is refused *)
| InternalError (msg : string)         (* sqlalchemy.exc: dependent objects still exist *)
| AirflowException (msg : string)
| OtherError (msg : string).

Inductive result (A : Type) :=
| Ok (a : A)
| Raise (e : exn).
Arguments Ok {A} a.
Arguments Raise {A} e.

(** Python's truth value of an object, as [not] and [if] take it. *)
Definition truthy (v : pyobj) : bool :=
  match v with
  | PyNone => false
  | PyBool b => b
  | PyInt z => negb (z =? 0)%Z
  | PyStr s => negb (String.eqb s "")
  | PyDagRun _ => true
  | PyTaskInstance _ => true
  end.

(** ** Strings *)

(** [str.lower] on the ASCII range. *)
Definition ascii_lower (c : ascii) : ascii :=
  let n := N_of_ascii c in
  if ((65 <=? n) && (n <=? 90))%N then ascii_of_N (n + 32) else c.

Fixpoint lower (s : string) : string :=
  match s with
  | EmptyString => EmptyString
  | String c r => String (ascii_lower c) (lower r)
  end.

Fixpoint is_prefix (p s : string) : bool :=
  match p, s with
  | EmptyString, _ => true
  | String a p', String b s' => Ascii.eqb a b && is_prefix p' s'
  | String _ _, EmptyString => false
  end.

(** [sub in s] *)
Fixpoint contains (sub s : string) : bool :=
  is_prefix sub s ||
  match s with
  | EmptyString => false
  | String _ r => contains sub r
  end.

Definition last_char (s : string) : option ascii :=
  match String.length s with
  | O => None
  | S n => String.get n s
  end.

(** [os.path.join(a, b)] of posixpath, for two components. *)
Definition os_path_join (a : option string) (b : string) : result string :=
  match a with
  | None => Raise (TypeError "expected str, bytes or os.PathLike object, not NoneType")
  | Some a =>
      if is_prefix "/" b then Ok b
      else if String.eqb a "" then Ok b
      else match last_char a with
           | Some "/"%char => Ok (a +:+ b)
           | _ => Ok (a +:+ "/" +:+ b)
           end
  end.

(** [str(x)] for a value that may be [None]. *)
Definition str_of_option (o : option string) : string :=
  match o with
  | None => "None"
  | Some s => s
  end.

(** Decimal digits of a number, most significant first. *)
Definition digit (n : N) : ascii := ascii_of_N (48 + n).

Fixpoint dec_digits (fuel : nat) (n : N) (acc : string) : string :=
  match fuel with
  | O => acc
  | S f =>
      let acc' := String (digit (n mod 10)) acc in
      if (n / 10 =? 0)%N then acc' else dec_digits f (n / 10) acc'
  end.

Definition str_of_N (n : N) : string := dec_digits (S (N.size_nat n)) n "".

Fixpoint zeros (k : nat) : string :=
  match k with
  | O => ""
  | S k' => String "0" (zeros k')
  end.

(** ["%0<width>d" % n] *)
Definition zfill (width : nat) (n : N) : string :=
  let s := str_of_N n in
  zeros (width - String.length s) +:+ s.

(** [datetime.strftime] for the directives the file uses. *)
Definition strftime_directive (d : DateTime) (c : ascii) : string :=
  match c with
  | "Y"%char => zfill 4 (dt_year d)
  | "m"%char => zfill 2 (dt_month d)
  | "d"%char => zfill 2 (dt_day d)
  | "H"%char => zfill 2 (dt_hour d)
  | "M"%char => zfill 2 (dt_minute d)
  | "S"%char => zfill 2 (dt_second d)
  | "f"%char => zfill 6 (dt_microsecond d)
  | "%"%char => "%"
  | _ => String "%" (String c "")
  end.

Fixpoint strftime (d : DateTime) (fmt : string) : string :=
  match fmt with
  | EmptyString => ""
  | String "%" (String c r) => strftime_directive d c +:+ strftime d r
  | String c r => String c (strftime d r)
  end.

(** [str(datetime)], that is [isoformat(sep=' ')]. *)
Definition str_of_datetime (d : DateTime) : string :=
  strftime d "%Y-%m-%d %H:%M:%S"
  +:+ (if (dt_microsecond d =? 0)%N then "" else "." +:+ zfill 6 (dt_microsecond d))
  +:+ match dt_utcoffset d with
      | None => ""
      | Some (sgn, h, m) => (if sgn : bool then "+" else "-") +:+ zfill 2 h +:+ ":" +:+ zfill 2 m
      end.

(** ** Data frames and the database *)

(** A value of a frame or of a table, by the dtype of its column: a missing
    value ([NaN], [None]), a bool, an int64, a uint64, a float64 (the number
    [m * 2^e], or an infinity), or the [str] of an object column. *)
Inductive cell :=
| CNull
| CBool (b : bool)
| CInt (z : Z)
| CUInt (z : Z)
| CFloat (m e : Z)
| CInf (negative : bool)
| CStr (s : string).

Record DataFrame := mkDataFrame {
  df_columns : list string;
  df_index : list cell;
  df_rows : list (list cell)
}.

(** A table of the database: its columns and rows, and the names of the
    objects that depend on it (views over it, foreign keys to it). *)
Record Table := mkTable {
  t_columns : list string;
  t_rows : list (list cell);
  t_dependents : list string
}.

(** A database holds its tables by name. *)
Abbreviation Database := (gmap string Table).

Inductive stmt :=
| DropTableIfExists (name : string) (cascade : bool)
| AlterTableRename (old new : string).

Fixpoint tokens_from (s cur : string) : list string :=
  match s with
  | EmptyString => if String.eqb cur "" then [] else [cur]
  | String c r =>
      if Ascii.eqb c " " then
        (if String.eqb cur "" then tokens_from r "" else cur :: tokens_from r "")
      else tokens_from r (cur +:+ String c "")
  end.

Definition tokens (s : string) : list string := tokens_from s "".

(** The statements the file sends.  Keywords and unquoted names are folded
    to lower case, as the server does. *)
Definition parse_sql (sql : string) : option stmt :=
  let toks := tokens (lower sql) in
  if bool_decide (take 4 toks = ["drop"; "table"; "if"; "exists"]) then
    match drop 4 toks with
    | [t] => Some (DropTableIfExists t false)
    | [t; c] => if String.eqb c "cascade" then Some (DropTableIfExists t true) else None
    | _ => None
    end
  else
    match toks with
    | [a; t; old; r; to; new] =>
        if String.eqb a "alter" && String.eqb t "table"
           && String.eqb r "rename" && String.eqb to "to"
        then Some (AlterTableRename old new) else None
    | _ => None
    end.

(** What the server does with a statement: the new database, or the error.
    [CASCADE] takes the dependent objects away with the table; without it a
    table that has dependent objects is not dropped.  A renamed table keeps
    the objects that depend on it. *)
Definition run_stmt (st : stmt) (db : Database) : result Database :=
  match st with
  | DropTableIfExists name cascade =>
      match db !! name with
      | None => Ok db                      (* NOTICE: table does not exist, skipping *)
      | Some t =>
          if cascade then Ok (delete name db)
          else
            match t_dependents t with
            | [] => Ok (delete name db)
            | _ :: _ =>
                Raise (InternalError
                         ("cannot drop table " +:+ name
                          +:+ " because other objects depend on it"))
            end
      end
  | AlterTableRename old new =>
      match db !! old with
      | None => Raise (ProgrammingError ("relation " +:+ old +:+ " does not exist"))
      | Some t =>
          if bool_decide (is_Some (db !! new))
          then Raise (ProgrammingError ("relation " +:+ new +:+ " already exists"))
          else Ok (<[new := t]> (delete old db))
      end
  end.

(** ** The world and the monad of the callables *)

Record Batch := mkBatch {
  batch_kwargs : gmap string string;
  batch_suite : string
}.

(** Calls that leave the process, in the order they are made. *)
Inductive Event :=
| EvConnect (url : string)
| EvExecute (url sql : string)
| EvReadCsv (path : string)
| EvToSql (url name : string)
| EvUtcNow
| EvDataContext
| EvGetBatch (kwargs : gmap string string) (suite : string)
| EvRunValidationOperator (name : string) (assets : list Batch) (run_id : string)
| EvShell (cmd : string).

Record World := mkWorld {
  w_fs : gmap string string;        (* files: path to text *)
  w_dbs : gmap string Database;     (* the servers that answer, by URL *)
  w_now : DateTime;                 (* the wall clock *)
  w_trace : list Event
}.

Definition M (A : Type) : Type := World -> result A * World.

Definition ret {A} (a : A) : M A := fun w => (Ok a, w).

Definition raise {A} (e : exn) : M A := fun w => (Raise e, w).

Definition bind {A B} (m : M A) (k : A -> M B) : M B :=
  fun w =>
    match m w with
    | (Ok a, w') => k a w'
    | (Raise e, w') => (Raise e, w')
    end.

Definition lift {A} (r : result A) : M A := fun w => (r, w).

Notation "'let*' x ':=' c 'in' k" := (bind c (fun x => k))
  (at level 10, x name, c at level 100, k at level 200).
Notation "c ';;;' k" := (bind c (fun _ => k))
  (at level 100, k at level 200, right associativity).

Definition emit (ev : Event) : M unit :=
  fun w => (Ok tt, {| w_fs := w_fs w; w_dbs := w_dbs w; w_now := w_now w;
                      w_trace := w_trace w ++ [ev] |}).

Definition set_db (url : string) (db : Database) : M unit :=
  fun w => (Ok tt, {| w_fs := w_fs w; w_dbs := <[url := db]> (w_dbs w); w_now := w_now w;
                      w_trace := w_trace w |}).

(** *** SQLAlchemy *)

Definition Engine := string.
Definition Connection := string.

Definition create_engine (url : option string) : M Engine :=
  match url with
  | None => raise (AttributeError "'NoneType' object has no attribute 'get_dialect'")
  | Some u => ret u
  end.

(** [engine.connect()] *)
Definition connect (engine : Engine) : M Connection :=
  emit (EvConnect engine) ;;;
  fun w =>
    match w_dbs w !! engine with
    | None => (Raise (OperationalError ("could not connect to server: " +:+ engine)), w)
    | Some _ => (Ok engine, w)
    end.

(** Runs a change of the database at [url], committing it when it succeeds. *)
Definition on_database (url : string) (f : Database -> result Database) : M unit :=
  fun w =>
    match w_dbs w !! url with
    | None => (Raise (OperationalError ("could not connect to server: " +:+ url)), w)
    | Some db =>
        match f db with
        | Ok db' => set_db url db' w
        | Raise e => (Raise e, w)
        end
    end.

(** [conn.execute(sql)]: a DDL statement is committed as it is executed. *)
Definition execute (conn : Connection) (sql : string) : M unit :=
  emit (EvExecute conn sql) ;;;
  match parse_sql sql with
  | None => raise (ProgrammingError ("syntax error: " +:+ sql))
  | Some st => on_database conn (run_stmt st)
  end.

(** Runs, on the database at [url], a change made of several statements,
    each committed as it is executed: what was done before a failure stays. *)
Definition on_database_partial (url : string) (f : Database -> Database * result unit)
    : M unit :=
  fun w =>
    match w_dbs w !! url with
    | None => (Raise (OperationalError ("could not connect to server: " +:+ url)), w)
    | Some db =>
        ((f db).2, {| w_fs := w_fs w; w_dbs := <[url := (f db).1]> (w_dbs w);
                      w_now := w_now w; w_trace := w_trace w |})
    end.

(** *** pandas *)

(** [DataFrame.rename(columns=d)]: a label that is a key of [d] is replaced. *)
Definition rename_columns (d : gmap string string) (df : DataFrame) : DataFrame :=
  {| df_columns := (fun c => default c (d !! c)) <$> df_columns df;
     df_index := df_index df;
     df_rows := df_rows df |}.

(** [{k: f(k) for k in keys}] *)
Definition dict_comprehension (f : string -> string) (keys : list string) : gmap string string :=
  foldl (fun d k => <[k := f k]> d) ∅ keys.

(** *** What the file does not define *)

Record DataContext := mkDataContext {
  context_root_directory : string
}.

(** The libraries whose answers the file only passes on: pandas' parser of a
    CSV text, the Unicode tables of [str.lower], the server's answer to a new
    table and its rows (what it keeps under the name, and the error if it
    refuses a part), the validation engine, and the shell that runs a command
    (its exit status and what it leaves in the files and the databases). *)
Record Externals := mkExternals {
  pd_parse : string -> result DataFrame;
  py_lower : string -> string;
  pg_store : string -> Table -> option Table * result unit;
  ge_DataContext : gmap string string -> result DataContext;
  ge_get_batch :
    DataContext -> gmap string Database -> gmap string string -> string -> result Batch;
  ge_run_validation_operator :
    DataContext -> gmap string Database -> string -> list Batch -> string ->
    result (gmap string pyobj);
  sh_run :
    string -> gmap string string -> gmap string Database ->
    Z * gmap string string * gmap string Database
}.

(** [str.lower].  A text is held as its UTF-8 bytes.  On ASCII text only the
    letters A-Z change; on any other text the Unicode tables decide. *)
Definition is_ascii (s : string) : bool :=
  forallb (fun c => (N_of_ascii c <? 128)%N) (list_ascii_of_string s).

Definition str_lower (X : Externals) (s : string) : string :=
  if is_ascii s then lower s else py_lower X s.

(** *** [DataFrame.to_sql] *)

(** The table has one column per label: a label met again takes the place
    of the column that had it, and a record keeps the last value given
    under a label. *)
Fixpoint put_last (k : string) (v : cell) (acc : list (string * cell))
    : list (string * cell) :=
  match acc with
  | [] => [(k, v)]
  | (k', v') :: rest =>
      if String.eqb k' k then (k', v) :: rest else (k', v') :: put_last k v rest
  end.

Definition by_label (labels : list string) (row : list cell) : list (string * cell) :=
  foldl (fun acc kv => put_last kv.1 kv.2 acc) [] (zip labels row).

(** The labels [by_label] keeps: each label once, where it came first. *)
Definition once (seen : list string) (k : string) : list string :=
  if bool_decide (k ∈ seen) then seen else seen ++ [k].

(** The table a frame is written as; the index, when asked for, is a column
    of its own. *)
Definition table_of_frame (df : DataFrame) (index : bool) : Table :=
  let index_label :=
    if bool_decide ("index" ∈ df_columns df) then "level_0" else "index" in
  let labels := if index then index_label :: df_columns df else df_columns df in
  let rows := if index then zip_with cons (df_index df) (df_rows df) else df_rows df in
  {| t_columns := (by_label labels (replicate (length labels) CNull)).*1;
     t_rows := (fun r => (by_label labels r).*2) <$> rows;
     t_dependents := [] |}.

Definition is_uint64 (c : cell) : bool :=
  match c with CUInt _ => true | _ => false end.

Definition has_uint64 (df : DataFrame) : bool :=
  existsb (existsb is_uint64) (df_rows df).

(** What [to_sql] refuses before it reaches the server. *)
Definition check_frame (df : DataFrame) (if_exists : string) : result unit :=
  if negb (bool_decide (if_exists ∈ ["fail"; "replace"; "append"])) then
    Raise (ValueError ("'" +:+ if_exists +:+ "' is not valid for if_exists"))
  else if has_uint64 df then
    Raise (ValueError "Unsigned 64 bit integer datatype is not supported")
  else Ok tt.

(** What [to_sql] does on the server: the database it leaves, and whether
    it got through.  A new table has no dependent object. *)
Definition write_frame (X : Externals) (name : string) (df : DataFrame)
    (if_exists : string) (index : bool) (db : Database) : Database * result unit :=
  let create (t : Table) (dependents : list string) (db : Database)
      : Database * result unit :=
    (match (pg_store X name t).1 with
     | Some kept =>
         <[name := {| t_columns := t_columns kept; t_rows := t_rows kept;
                      t_dependents := dependents |}]> db
     | None => db
     end, (pg_store X name t).2) in
  match db !! name with
  | None => create (table_of_frame df index) [] db
  | Some old =>
      if String.eqb if_exists "fail" then
        (db, Raise (ValueError ("Table '" +:+ name +:+ "' already exists.")))
      else if String.eqb if_exists "replace" then
        match run_stmt (DropTableIfExists name false) db with
        | Ok db' => create (table_of_frame df index) [] db'
        | Raise e => (db, Raise e)
        end
      else
        create {| t_columns := t_columns old;
                  t_rows := t_rows old ++ t_rows (table_of_frame df index);
                  t_dependents := [] |} (t_dependents old) db
  end.

Definition to_sql (X : Externals) (df : DataFrame) (name : string) (engine : Engine)
    (if_exists : string) (index : bool) : M unit :=
  emit (EvToSql engine name) ;;;
  lift (check_frame df if_exists) ;;;
  on_database_partial engine (write_frame X name df if_exists index).

Definition getitem {V} (d : gmap string V) (key : string) : M V :=
  match d !! key with
  | None => raise (KeyError key)
  | Some v => ret v
  end.

Definition get_run_id (o : pyobj) : M string :=
  match o with
  | PyDagRun dr => ret (run_id dr)
  | _ => raise (AttributeError "object has no attribute 'run_id'")
  end.

Definition get_start_date (o : pyobj) : M DateTime :=
  match o with
  | PyDagRun dr => ret (start_date dr)
  | _ => raise (AttributeError "object has no attribute 'start_date'")
  end.

(** [datetime.utcnow()] *)
Definition utcnow : M DateTime :=
  emit EvUtcNow ;;; fun w => (Ok (w_now w), w).

Section Callables.

Variable X : Externals.

(** [os.getenv('GE_TUTORIAL_DB_URL')] and [os.getenv('GE_TUTORIAL_PROJECT_PATH')],
    [None] when the variable is not set. *)
Variable GE_TUTORIAL_DB_URL : option string.
Variable GE_TUTORIAL_PROJECT_PATH : option string.

(** [pd.read_csv(path)] *)
Definition read_csv (path : string) : M DataFrame :=
  emit (EvReadCsv path) ;;;
  fun w =>
    match w_fs w !! path with
    | None => (Raise (FileNotFoundError path), w)
    | Some text => (pd_parse X text, w)
    end.

Definition DataContext_new : M DataContext :=
  emit EvDataContext ;;; fun w => (ge_DataContext X (w_fs w), w).

Definition get_batch (context : DataContext) (kwargs : gmap string string) (suite : string)
    : M Batch :=
  emit (EvGetBatch kwargs suite) ;;; fun w => (ge_get_batch X context (w_dbs w) kwargs suite, w).

Definition run_validation_operator (context : DataContext) (name : string)
    (assets_to_validate : list Batch) (run_id : string) : M (gmap string pyobj) :=
  emit (EvRunValidationOperator name assets_to_validate run_id) ;;;
  fun w => (ge_run_validation_operator X context (w_dbs w) name assets_to_validate run_id, w).

(** [def load_files_into_db(ds, **kwargs)] *)
Definition load_files_into_db (ds : pyobj) (kwargs : gmap string pyobj) : M pyobj :=
  let* engine := create_engine GE_TUTORIAL_DB_URL in
  let* conn := connect engine in
  execute conn "drop table if exists npi_small cascade " ;;;
  execute conn "drop table if exists state_abbreviations cascade " ;;;
  let* path := lift (os_path_join GE_TUTORIAL_PROJECT_PATH "data/npi_small.csv") in
  let* df_npi_small := read_csv path in
  let column_rename_dict := dict_comprehension (str_lower X) (df_columns df_npi_small) in
  let df_npi_small := rename_columns column_rename_dict df_npi_small in
  to_sql X df_npi_small "npi_small" engine "replace" false ;;;
  let* path := lift (os_path_join GE_TUTORIAL_PROJECT_PATH "data/state_abbreviations.csv") in
  let* df_state_abbreviations := read_csv path in
  to_sql X df_state_abbreviations "state_abbreviations" engine "replace" false ;;;
  ret (PyStr "Loaded files into the database").

(** [def publish_to_prod()] *)
Definition publish_to_prod : M pyobj :=
  let* engine := create_engine GE_TUTORIAL_DB_URL in
  let* conn := connect engine in
  execute conn "drop table if exists prod_count_providers_by_state" ;;;
  execute conn "alter table count_providers_by_state rename to prod_count_providers_by_state" ;;;
  ret PyNone.

(** [def validate_analytical_output(ds, **kwargs)] *)
Definition validate_analytical_output (ds : pyobj) (kwargs : gmap string pyobj) : M pyobj :=
  let* context := DataContext_new in
  let datasource_name := "datawarehouse" in
  let batch_kwargs : gmap string string :=
    <["datasource" := datasource_name]> (<["table" := "count_providers_by_state"]> ∅) in
  let expectation_suite_name := "count_providers_by_state.critical" in
  let* batch := get_batch context batch_kwargs expectation_suite_name in
  let* now := utcnow in
  let run_id := strftime now "%Y%m%dT%H%M%S.%fZ" in
  let* dag_run := getitem kwargs "dag_run" in
  let* rid := get_run_id dag_run in
  let* dag_run := getitem kwargs "dag_run" in
  let* sd := get_start_date dag_run in
  let run_id := "airflow:" +:+ rid +:+ ":" +:+ str_of_datetime sd in
  let* results := run_validation_operator context "action_list_operator" [batch] run_id in
  let* success := getitem results "success" in
  if negb (truthy success) then
    raise (AirflowException
             ("The analytical output does not meet the expectations in the suite: "
              +:+ expectation_suite_name))
  else ret PyNone.

End Callables.

(** ** Airflow: operators, the DAG, one run of it *)

Inductive callable :=
| Def_ds_kwargs (f : pyobj -> gmap string pyobj -> M pyobj)   (* [def f(ds, **kwargs)] *)
| Def_noargs (f : M pyobj).                                   (* [def f()] *)

Inductive Operator :=
| PythonOperator (task_id : string) (provide_context : bool) (python_callable : callable)
| BashOperator (task_id : string) (bash_command : string).

Definition task_id (op : Operator) : string :=
  match op with
  | PythonOperator t _ _ => t
  | BashOperator t _ => t
  end.

Inductive TaskState := success | failed | upstream_failed.

Global Instance TaskState_eq_dec : EqDecision TaskState.
Proof. solve_decision. Defined.

Record DAG := mkDAG {
  dag_id : string;
  dag_tasks : list Operator;               (* in the order they were created *)
  dag_edges : list (string * string)       (* (upstream, downstream) *)
}.

(** [a >> b]: [b] is set downstream of [a]; the value is [b]. *)
Definition rshift (edges : list (string * string)) (a b : Operator)
    : list (string * string) * Operator :=
  ((edges ++ [(task_id a, task_id b)])%list, b).

(** [python_callable] called with [kwargs] as its keyword arguments *)
Definition call (c : callable) (kwargs : gmap string pyobj) : M pyobj :=
  match c with
  | Def_ds_kwargs f =>
      match kwargs !! "ds" with
      | None => raise (TypeError "missing 1 required positional argument: 'ds'")
      | Some ds => f ds (delete "ds" kwargs)
      end
  | Def_noargs f =>
      if bool_decide (kwargs = ∅) then f
      else raise (TypeError "got an unexpected keyword argument")
  end.

Definition set_outside (fs : gmap string string) (dbs : gmap string Database) : M unit :=
  fun w => (Ok tt, {| w_fs := fs; w_dbs := dbs; w_now := w_now w; w_trace := w_trace w |}).

Section Airflow.

Variable X : Externals.
Variable GE_TUTORIAL_DB_URL : option string.
Variable GE_TUTORIAL_PROJECT_PATH : option string.

(** [bash <script>]: the empty script does nothing and exits with 0. *)
Definition bash (cmd : string) : M Z :=
  emit (EvShell cmd) ;;;
  if String.eqb cmd "" then ret 0%Z
  else fun w =>
    let '(rc, fs, dbs) := sh_run X cmd (w_fs w) (w_dbs w) in
    (set_outside fs dbs ;;; ret rc) w.

(** [operator.execute(context)] *)
Definition execute_operator (op : Operator) (context : gmap string pyobj) : M pyobj :=
  match op with
  | PythonOperator _ provide_context python_callable =>
      call python_callable (if provide_context then context else ∅)
  | BashOperator _ bash_command =>
      let* rc := bash bash_command in
      if (rc =? 0)%Z then ret PyNone
      else raise (AirflowException "Bash command failed")
  end.

Definition task_load_files_into_db : Operator :=
  PythonOperator "task_load_files_into_db" true
    (Def_ds_kwargs (load_files_into_db X GE_TUTORIAL_DB_URL GE_TUTORIAL_PROJECT_PATH)).

Definition task_dbt : Operator :=
  BashOperator "task_dbt"
    ("dbt run --project-dir " +:+ str_of_option GE_TUTORIAL_PROJECT_PATH).

Definition task_publish : Operator :=
  PythonOperator "task_publish" false (Def_noargs (publish_to_prod GE_TUTORIAL_DB_URL)).

Definition task_validate_source_data_load : Operator :=
  BashOperator "task_validate_source_data_load" "".

Definition task_validate_analytical_output : Operator :=
  PythonOperator "task_validate_analytical_output" true
    (Def_ds_kwargs (validate_analytical_output X)).

(** [task_load_files_into_db >> task_validate_source_data_load >> task_dbt
     >> task_validate_analytical_output >> task_publish] *)
Definition dependencies : list (string * string) :=
  let '(e, t) := rshift [] task_load_files_into_db task_validate_source_data_load in
  let '(e, t) := rshift e t task_dbt in
  let '(e, t) := rshift e t task_validate_analytical_output in
  let '(e, t) := rshift e t task_publish in
  e.

Definition dag : DAG :=
  {| dag_id := "ge_tutorials_dag";
     dag_tasks := [task_load_files_into_db; task_dbt; task_publish;
                   task_validate_source_data_load; task_validate_analytical_output];
     dag_edges := dependencies |}.

(** *** The scheduler: trigger rule [all_success], no retries *)

Record Run := mkRun {
  r_world : World;
  r_states : gmap string TaskState;
  r_xcom : list (string * string * pyobj);   (* (task_id, key, value) *)
  r_ran : list string;                       (* the tasks executed, in order *)
  r_failures : list (string * exn)
}.

Definition upstream (edges : list (string * string)) (t : string) : list string :=
  (filter (fun e => e.2 = t) edges).*1.

Definition decided (states : gmap string TaskState) (ups : list string) : bool :=
  forallb (fun u => bool_decide (is_Some (states !! u))) ups.

Definition all_success (states : gmap string TaskState) (ups : list string) : bool :=
  forallb (fun u => bool_decide (states !! u = Some success)) ups.

(** The first task without a state whose upstream tasks all have one. *)
Definition next_task_id (ids : list string) (edges : list (string * string))
    (states : gmap string TaskState) : option string :=
  List.find (fun t => bool_decide (states !! t = None) && decided states (upstream edges t)) ids.

Definition get_task (d : DAG) (t : string) : option Operator :=
  List.find (fun op => String.eqb (task_id op) t) (dag_tasks d).

(** What a callable is given as keyword arguments when [provide_context] is set. *)
Definition make_context (dr : DagRun) (xcom : list (string * string * pyobj))
    : gmap string pyobj :=
  <["ti" := PyTaskInstance xcom]>
    (<["dag_run" := PyDagRun dr]>
       (<["ds" := PyStr (strftime (execution_date dr) "%Y-%m-%d")]> ∅)).

Definition run_task (dr : DagRun) (op : Operator) (r : Run) : Run :=
  let t := task_id op in
  if all_success (r_states r) (upstream (dag_edges dag) t) then
    match execute_operator op (make_context dr (r_xcom r)) (r_world r) with
    | (Ok v, w') =>
        {| r_world := w';
           r_states := <[t := success]> (r_states r);
           r_xcom := match v with
                     | PyNone => r_xcom r
                     | _ => r_xcom r ++ [(t, "return_value", v)]
                     end;
           r_ran := r_ran r ++ [t];
           r_failures := r_failures r |}
    | (Raise e, w') =>
        {| r_world := w';
           r_states := <[t := failed]> (r_states r);
           r_xcom := r_xcom r;
           r_ran := r_ran r ++ [t];
           r_failures := r_failures r ++ [(t, e)] |}
    end
  else
    {| r_world := r_world r;
       r_states := <[t := upstream_failed]> (r_states r);
       r_xcom := r_xcom r;
       r_ran := r_ran r;
       r_failures := r_failures r |}.

Definition step (dr : DagRun) (r : Run) : option Run :=
  match next_task_id (task_id <$> dag_tasks dag) (dag_edges dag) (r_states r) with
  | None => None
  | Some t =>
      match get_task dag t with
      | None => None
      | Some op => Some (run_task dr op r)
      end
  end.

Fixpoint steps (fuel : nat) (dr : DagRun) (r : Run) : Run :=
  match fuel with
  | O => r
  | S f =>
      match step dr r with
      | None => r
      | Some r' => steps f dr r'
      end
  end.

Definition start (w : World) : Run :=
  {| r_world := w; r_states := ∅; r_xcom := []; r_ran := []; r_failures := [] |}.

(** One run of the DAG: every task gets a state. *)
Definition dag_run (dr : DagRun) (w : World) : Run :=
  steps (length (dag_tasks dag)) dr (start w).

End Airflow.

(** The chain as the dependency line writes it. *)
Definition chain : list string :=
  ["task_load_files_into_db"; "task_validate_source_data_load"; "task_dbt";
   "task_validate_analytical_output"; "task_publish"].

(** ** A parser for plain CSV texts

    [pd.read_csv] on the texts the statements are run on: records on lines
    of their own, fields separated by commas, the first line being the
    header with labels that differ.  A field is a decimal integer of 64
    bits or a word (letters, digits, blanks and underscores, from a letter
    to a letter or digit) that pandas does not read as a missing value, a
    truth value or a number.  A column of integers is [int64], or [uint64]
    when it needs the 64th bit; any other column holds the fields as they
    are written.  A text that is not of this kind is given no frame here. *)

Fixpoint split_from (sep : ascii) (s cur : string) : list string :=
  match s with
  | EmptyString => [cur]
  | String c r =>
      if Ascii.eqb c sep then cur :: split_from sep r ""
      else split_from sep r (cur +:+ String c "")
  end.

Definition split (sep : ascii) (s : string) : list string := split_from sep s "".

Definition is_digit (c : ascii) : bool :=
  let n := N_of_ascii c in ((48 <=? n) && (n <=? 57))%N.

Definition is_letter (c : ascii) : bool :=
  let n := N_of_ascii c in
  (((65 <=? n) && (n <=? 90)) || ((97 <=? n) && (n <=? 122)))%N.

Fixpoint nat_of_digits (s : string) (acc : Z) : option Z :=
  match s with
  | EmptyString => Some acc
  | String c r =>
      if is_digit c then nat_of_digits r (10 * acc + Z.of_N (N_of_ascii c - 48))%Z
      else None
  end.

Definition int_of_string (s : string) : option Z :=
  match s with
  | EmptyString => None
  | String "-" (String c r) => Z.opp <$> nat_of_digits (String c r) 0
  | _ => nat_of_digits s 0
  end.

(** The words pandas reads as something else than a string. *)
Definition reserved : list string :=
  ["na"; "nan"; "null"; "none"; "true"; "false"; "inf"; "infinity"].

Definition is_word (s : string) : bool :=
  match s with
  | EmptyString => false
  | String c r =>
      is_letter c
      && forallb (fun a => is_letter a || is_digit a || Ascii.eqb a " " || Ascii.eqb a "_")
           (list_ascii_of_string r)
      && match last_char s with
         | Some a => is_letter a || is_digit a
         | None => false
         end
      && negb (bool_decide (lower s ∈ reserved))
  end.

Inductive dtype := Int64 | UInt64 | Object.

Definition column_dtype (fields : list string) : option dtype :=
  match mapM int_of_string fields with
  | Some zs =>
      if forallb (fun z => (- 2 ^ 63 <=? z)%Z && (z <? 2 ^ 63)%Z) zs then Some Int64
      else if forallb (fun z => (0 <=? z)%Z && (z <? 2 ^ 64)%Z) zs then Some UInt64
      else None
  | None =>
      if forallb (fun f => is_word f || bool_decide (is_Some (int_of_string f))) fields
      then Some Object else None
  end.

Definition read_field (d : dtype) (f : string) : cell :=
  match d with
  | Int64 => CInt (default 0%Z (int_of_string f))
  | UInt64 => CUInt (default 0%Z (int_of_string f))
  | Object => CStr f
  end.

Definition newline : ascii := "010"%char.

Definition csv_parse (text : string) : result DataFrame :=
  match filter (fun l => l ≠ "") (split newline text) with
  | [] => Raise (EmptyDataError "No columns to parse from file")
  | header :: lines =>
      let labels := split "," header in
      let records := split "," <$> lines in
      let column (j : nat) := (fun r => default "" (r !! j)) <$> records in
      if forallb is_word labels && bool_decide (NoDup labels)
         && forallb (fun r => bool_decide (length r = length labels)) records
      then
        match mapM (fun j => column_dtype (column j)) (seq 0 (length labels)) with
        | Some dtypes =>
            Ok {| df_columns := labels;
                  df_index := (fun i => CInt (Z.of_nat i)) <$> seq 0 (length records);
                  df_rows := zip_with read_field dtypes <$> records |}
        | None => Raise (ParserError "csv_parse: not a plain CSV text")
        end
      else Raise (ParserError "csv_parse: not a plain CSV text")
  end.

(** ** A sample installation

    A project directory with the two CSV files, a database that already
    holds tables from an earlier run, a server that stores a table as it is
    given, an engine that answers with a fixed success flag, and a [dbt]
    that builds the analytical table.  The sample files are ASCII texts, on
    which [str.lower] does not consult the Unicode tables. *)

Definition sample_url : string := "postgresql://warehouse/tutorials".

Definition sample_npi_csv : string :=
  "NPI,Name" +:+ String newline ("123,Acme" +:+ String newline "").

Definition sample_states_csv : string :=
  "name,abbreviation" +:+ String newline ("Alabama,AL" +:+ String newline "").

Definition sample_counts : Table :=
  {| t_columns := ["state"; "count"]; t_rows := [[CStr "AL"; CInt 1]]; t_dependents := [] |}.

Definition sample_db : Database :=
  <["npi_small" := {| t_columns := ["npi"]; t_rows := [[CInt 7]];
                      t_dependents := ["stg_npi"] |}]>
    (<["prod_count_providers_by_state" :=
         {| t_columns := ["state"; "count"]; t_rows := []; t_dependents := [] |}]> ∅).

Definition sample_time : DateTime :=
  {| dt_year := 2020; dt_month := 3; dt_day := 14; dt_hour := 15; dt_minute := 9;
     dt_second := 26; dt_microsecond := 535897; dt_utcoffset := Some (true, 0%N, 0%N) |}.

Definition sample_world : World :=
  {| w_fs := <["/project/data/npi_small.csv" := sample_npi_csv]>
               (<["/project/data/state_abbreviations.csv" := sample_states_csv]> ∅);
     w_dbs := <[sample_url := sample_db]> ∅;
     w_now := sample_time;
     w_trace := [] |}.

Definition sample_externals (passes : bool) : Externals :=
  {| pd_parse := csv_parse;
     py_lower := lower;
     pg_store := fun _ t => (Some t, Ok tt);
     ge_DataContext := fun _ => Ok {| context_root_directory := "/project/great_expectations" |};
     ge_get_batch := fun _ _ kwargs suite => Ok {| batch_kwargs := kwargs; batch_suite := suite |};
     ge_run_validation_operator := fun _ _ _ _ _ => Ok (<["success" := PyBool passes]> ∅);
     sh_run := fun _ fs dbs =>
       (0%Z, fs, (fun db : Database => <["count_providers_by_state" := sample_counts]> db) <$> dbs) |}.

Definition sample_dag_run : DagRun :=
  {| run_id := "manual__2020-03-14T15:09:26+00:00";
     execution_date := sample_time;
     start_date := sample_time |}.

(** The sample database once [dbt] has built the analytical table. *)
Definition sample_built : World :=
  {| w_fs := w_fs sample_world;
     w_dbs := <[sample_url := <["count_providers_by_state" := sample_counts]> sample_db]> ∅;
     w_now := sample_time;
     w_trace := [] |}.

(** The sample database with a view over the production table. *)
Definition sample_watched : World :=
  {| w_fs := w_fs sample_world;
     w_dbs := <[sample_url :=
                  <["prod_count_providers_by_state" :=
                      {| t_columns := ["state"; "count"]; t_rows := [];
                         t_dependents := ["dashboard_counts"] |}]>
                    (<["count_providers_by_state" := sample_counts]> sample_db)]> ∅;
     w_now := sample_time;
     w_trace := [] |}.

(** ** Names used in the statements *)

(** What [validate_analytical_output] binds the batch to. *)
Definition analytical_batch_kwargs : gmap string string :=
  <["datasource" := "datawarehouse"]> (<["table" := "count_providers_by_state"]> ∅).

(** ["airflow:" + dag_run.run_id + ":" + str(dag_run.start_date)] *)
Definition airflow_run_id (dr : DagRun) : string :=
  "airflow:" +:+ run_id dr +:+ ":" +:+ str_of_datetime (start_date dr).

(** The run identifiers the validation operator was called with. *)
Definition run_ids (tr : list Event) : list string :=
  omap (fun ev => match ev with
                  | EvRunValidationOperator _ _ r => Some r
                  | _ => None
                  end) tr.

(** What [pd.read_csv] makes of the file at a path. *)
Definition csv_frame (X : Externals) (fs : gmap string string) (path : string)
    : result DataFrame :=
  match fs !! path with
  | None => Raise (FileNotFoundError path)
  | Some text => pd_parse X text
  end.

(** The table [to_sql(..., index=False)] creates from a frame. *)
Definition fresh_table (columns : list string) (rows : list (list cell)) : Table :=
  {| t_columns := columns; t_rows := rows; t_dependents := [] |}.

(** A frame with its labels lower-cased. *)
Definition lower_columns (X : Externals) (df : DataFrame) : DataFrame :=
  {| df_columns := str_lower X <$> df_columns df; df_index := df_index df;
     df_rows := df_rows df |}.

(** What [to_sql(name, engine, if_exists='replace', index=False)] makes of
    the database, and whether it got through. *)
Definition to_sql_on (X : Externals) (df : DataFrame) (name : string) (db : Database)
    : Database * result unit :=
  match check_frame df "replace" with
  | Raise e => (db, Raise e)
  | Ok _ => write_frame X name df "replace" false db
  end.

(** A frame that [to_sql] writes under a name as it is: every record as
    long as the header, no [uint64] column, labels that differ, and a
    server that takes the table and all its rows. *)
Definition storable (X : Externals) (name : string) (df : DataFrame) : Prop :=
  Forall (fun r => length r = length (df_columns df)) (df_rows df) ∧
  has_uint64 df = false ∧
  NoDup (df_columns df) ∧
  pg_store X name (fresh_table (df_columns df) (df_rows df))
    = (Some (fresh_table (df_columns df) (df_rows df)), Ok tt).

(** The loader's effect on the database it connects to, written out: the
    value or the exception, the database left behind, and the calls made
    after connecting. *)
Definition load_outcome (X : Externals) (PATH : option string) (url : string)
    (fs : gmap string string) (db : Database) : result pyobj * Database * list Event :=
  let db0 : Database := delete "state_abbreviations" (delete "npi_small" db) in
  let drops := [EvExecute url "drop table if exists npi_small cascade ";
                EvExecute url "drop table if exists state_abbreviations cascade "] in
  match os_path_join PATH "data/npi_small.csv" with
  | Raise e => (Raise e, db0, drops)
  | Ok p1 =>
      match csv_frame X fs p1 with
      | Raise e => (Raise e, db0, drops ++ [EvReadCsv p1])
      | Ok df1 =>
          let wrote1 := to_sql_on X (lower_columns X df1) "npi_small" db0 in
          let db1 := wrote1.1 in
          let evs1 := drops ++ [EvReadCsv p1; EvToSql url "npi_small"] in
          match wrote1.2 with
          | Raise e => (Raise e, db1, evs1)
          | Ok _ =>
              match os_path_join PATH "data/state_abbreviations.csv" with
              | Raise e => (Raise e, db1, evs1)
              | Ok p2 =>
                  match csv_frame X fs p2 with
                  | Raise e => (Raise e, db1, evs1 ++ [EvReadCsv p2])
                  | Ok df2 =>
                      let wrote2 := to_sql_on X df2 "state_abbreviations" db1 in
                      (match wrote2.2 with
                       | Ok _ => Ok (PyStr "Loaded files into the database")
                       | Raise e => Raise e
                       end,
                       wrote2.1,
                       evs1 ++ [EvReadCsv p2; EvToSql url "state_abbreviations"])
                  end
              end
          end
      end
  end.

(** The tables a database holds under a name. *)
Definition tables_named (db : Database) (name : string) : list Table :=
  (filter (fun e => e.1 = name) (map_to_list db)).*2.

(** The events a computation adds to the trace of the world it starts in. *)
Definition events {A} (m : M A) (w : World) : list Event :=
  drop (length (w_trace w)) (w_trace (m w).2).

(** The world with another wall clock. *)
Definition at_time (now : DateTime) (w : World) : World :=
  {| w_fs := w_fs w; w_dbs := w_dbs w; w_now := now; w_trace := w_trace w |}.

(** *** The bookkeeping of a run

    What the scheduler records of a run, apart from the world: the states of
    the tasks and the list of the tasks it executed.  [advance] is the change
    one task makes to it, given whether its execution succeeded. *)

Definition summary (r : Run) : gmap string TaskState * list string :=
  (r_states r, r_ran r).

Definition advance (edges : list (string * string)) (t : string) (ok : bool)
    (s : gmap string TaskState * list string) : gmap string TaskState * list string :=
  if all_success s.1 (upstream edges t) then
    (<[t := if ok then success else failed]> s.1, s.2 ++ [t])
  else (<[t := upstream_failed]> s.1, s.2).

(** Whether the execution of a task in a run returns. *)
Definition succeeded (X : Externals) (dr : DagRun) (op : Operator) (r : Run) : bool :=
  match (execute_operator X op (make_context dr (r_xcom r)) (r_world r)).1 with
  | Ok _ => true
  | Raise _ => false
  end.

(** The edges the dependency line leaves in the DAG. *)
Definition chain_edges : list (string * string) :=
  [("task_load_files_into_db", "task_validate_source_data_load");
   ("task_validate_source_data_load", "task_dbt");
   ("task_dbt", "task_validate_analytical_output");
   ("task_validate_analytical_output", "task_publish")].

(** The bookkeeping after the five tasks, taken in the order of the chain,
    from whether each execution would succeed. *)
Definition chain_summary (oks : list bool) : gmap string TaskState * list string :=
  foldl (fun s e => advance chain_edges e.1 e.2 s) (∅, []) (zip chain oks).

(** The states of the five tasks, in the order of the chain. *)
Definition states_of (st : gmap string TaskState) : list (option TaskState) :=
  (fun t => st !! t) <$> chain.

(** The bookkeeping of a run in which the first [k] tasks of the chain
    succeed and the next one, if there is one, fails: the states of the five
    tasks and the tasks executed. *)
Definition outcome (k : nat) : list (option TaskState) * list string :=
  (Some <$> take 5 (replicate k success ++ failed :: replicate (4 - k) upstream_failed),
   take (S k) chain).

(** *** The runs on the way

    The five operators in the order of the chain, the run after the first
    [n] of them, and whether the execution of the next one returns. *)

Definition chain_tasks (X : Externals) (URL PATH : option string) : list Operator :=
  [task_load_files_into_db X URL PATH; task_validate_source_data_load; task_dbt PATH;
   task_validate_analytical_output X; task_publish URL].

Definition run_prefix (X : Externals) (URL PATH : option string) (dr : DagRun) (w : World)
    (n : nat) : Run :=
  foldl (fun r op => run_task X URL PATH dr op r) (start w) (take n (chain_tasks X URL PATH)).

Definition ok_at (X : Externals) (URL PATH : option string) (dr : DagRun) (w : World)
    (n : nat) : bool :=
  match chain_tasks X URL PATH !! n with
  | Some op => succeeded X dr op (run_prefix X URL PATH dr w n)
  | None => true
  end.

(** The sample installation with an [npi_small.csv] whose two labels differ
    in case only. *)
Definition sample_clash_csv : string :=
  "NPI,npi" +:+ String newline ("1,2" +:+ String newline "").

Definition sample_clash : World :=
  {| w_fs := <["/project/data/npi_small.csv" := sample_clash_csv]> (w_fs sample_world);
     w_dbs := w_dbs sample_world;
     w_now := sample_time;
     w_trace := [] |}.

(** The sample externals with a [dbt] that exits with status 1. *)
Definition sample_broken_dbt : Externals :=
  {| pd_parse := csv_parse;
     py_lower := py_lower (sample_externals true);
     pg_store := pg_store (sample_externals true);
     ge_DataContext := ge_DataContext (sample_externals true);
     ge_get_batch := ge_get_batch (sample_externals true);
     ge_run_validation_operator := ge_run_validation_operator (sample_externals true);
     sh_run := fun _ fs dbs => (1%Z, fs, dbs) |}.

(** The sample externals with an engine that gives a fixed answer. *)
Definition sample_answering (answer : gmap string pyobj) : Externals :=
  {| pd_parse := csv_parse;
     py_lower := py_lower (sample_externals true);
     pg_store := pg_store (sample_externals true);
     ge_DataContext := ge_DataContext (sample_externals true);
     ge_get_batch := ge_get_batch (sample_externals true);
     ge_run_validation_operator := fun _ _ _ _ _ => Ok answer;
     sh_run := sh_run (sample_externals true) |}.

(** * Properties *)

(** ** The monad *)

Lemma bind_Ok {A B} (m : M A) (k : A -> M B) w a w' :
  m w = (Ok a, w') -> bind m k w = k a w'.
Proof. intros H. unfold bind. by rewrite H. Qed.

Lemma bind_Raise {A B} (m : M A) (k : A -> M B) w e w' :
  m w = (Raise e, w') -> bind m k w = (Raise e, w').
Proof. intros H. unfold bind. by rewrite H. Qed.

Lemma events_app {A} (m : M A) w l :
  w_trace (m w).2 = w_trace w ++ l -> events m w = l.
Proof. intros H. unfold events. rewrite H. apply drop_app_length. Qed.

(** ** The output-validation gate *)

Section Gate.

Variable X : Externals.

(** Once the data context and the batch are there and the scheduler has
    given the run, the gate calls the operator and decides on its answer. *)
Lemma validate_reaches ds kwargs w ctx batch dr :
  ge_DataContext X (w_fs w) = Ok ctx ->
  ge_get_batch X ctx (w_dbs w) analytical_batch_kwargs "count_providers_by_state.critical"
    = Ok batch ->
  kwargs !! "dag_run" = Some (PyDagRun dr) ->
  validate_analytical_output X ds kwargs w =
    let w' := {| w_fs := w_fs w; w_dbs := w_dbs w; w_now := w_now w;
                 w_trace := w_trace w ++
                   [EvDataContext;
                    EvGetBatch analytical_batch_kwargs "count_providers_by_state.critical";
                    EvUtcNow;
                    EvRunValidationOperator "action_list_operator" [batch]
                      (airflow_run_id dr)] |} in
    match ge_run_validation_operator X ctx (w_dbs w) "action_list_operator" [batch]
            (airflow_run_id dr) with
    | Raise e => (Raise e, w')
    | Ok results =>
        match results !! "success" with
        | None => (Raise (KeyError "success"), w')
        | Some s =>
            if truthy s then (Ok PyNone, w')
            else (Raise (AirflowException
                           ("The analytical output does not meet the expectations in the suite: "
                            +:+ "count_providers_by_state.critical")), w')
        end
    end.
Proof.
  intros Hc Hb Hk.
  unfold validate_analytical_output, DataContext_new, get_batch, utcnow,
    run_validation_operator, getitem, bind, emit.
  cbn. rewrite Hc. cbn. fold analytical_batch_kwargs. rewrite Hb. cbn. rewrite Hk. cbn.
  rewrite <- !app_assoc. cbn. fold (airflow_run_id dr).
  destruct (ge_run_validation_operator _ _ _ _ _ _) as [results|e]; [|done].
  destruct (results !! "success") as [s|]; [|done].
  cbn. by destruct (truthy s).
Qed.

(** Whatever happens, the operator is called at most once, and then with the
    identifier made of the scheduler's run. *)
Lemma validate_run_ids ds kwargs w :
  run_ids (events (validate_analytical_output X ds kwargs) w) = [] ∨
  ∃ dr, kwargs !! "dag_run" = Some (PyDagRun dr) ∧
        run_ids (events (validate_analytical_output X ds kwargs) w) = [airflow_run_id dr].
Proof.
  destruct (ge_DataContext X (w_fs w)) as [ctx|e] eqn:Hc.
  2:{ left. rewrite (events_app _ _ [EvDataContext]); [done|].
      unfold validate_analytical_output, DataContext_new, bind, emit. cbn.
      by rewrite Hc. }
  destruct (ge_get_batch X ctx (w_dbs w) analytical_batch_kwargs
              "count_providers_by_state.critical") as [batch|e] eqn:Hb.
  2:{ left.
      rewrite (events_app _ _
                 [EvDataContext;
                  EvGetBatch analytical_batch_kwargs "count_providers_by_state.critical"]);
        [done|].
      unfold validate_analytical_output, DataContext_new, get_batch, bind, emit. cbn.
      rewrite Hc. cbn. fold analytical_batch_kwargs. rewrite Hb. cbn.
      by rewrite <- app_assoc. }
  assert (Hstop : ∀ e,
    (getitem kwargs "dag_run" = raise e ∨
     ∃ o, kwargs !! "dag_run" = Some o ∧ get_run_id o = raise e) ->
    run_ids (events (validate_analytical_output X ds kwargs) w) = []).
  { intros e He.
    rewrite (events_app _ _
               [EvDataContext;
                EvGetBatch analytical_batch_kwargs "count_providers_by_state.critical";
                EvUtcNow]); [done|].
    unfold validate_analytical_output, DataContext_new, get_batch, utcnow, bind, emit. cbn.
    rewrite Hc. cbn. fold analytical_batch_kwargs. rewrite Hb. cbn.
    rewrite <- !app_assoc. cbn.
    destruct He as [He|(o & Ho & He)].
    - by rewrite He.
    - unfold getitem. rewrite Ho. cbn. by rewrite He. }
  destruct (kwargs !! "dag_run") as [o|] eqn:Hk.
  2:{ left. apply (Hstop (KeyError "dag_run")). left. unfold getitem. by rewrite Hk. }
  destruct o as [| | | |dr|];
    try (left; eapply Hstop; right; eexists; split; [done|reflexivity]).
  right. exists dr. split; [done|].
  rewrite (events_app _ _
             [EvDataContext;
              EvGetBatch analytical_batch_kwargs "count_providers_by_state.critical";
              EvUtcNow;
              EvRunValidationOperator "action_list_operator" [batch] (airflow_run_id dr)]);
    [done|].
  rewrite (validate_reaches ds kwargs w ctx batch dr Hc Hb Hk). cbn.
  destruct (ge_run_validation_operator _ _ _ _ _ _) as [results|e]; [|done].
  destruct (results !! "success") as [s|]; [|done]. by destruct (truthy s).
Qed.

End Gate.

(** ** Statements and connections *)

Lemma parse_drop_npi_small :
  parse_sql "drop table if exists npi_small cascade "
  = Some (DropTableIfExists "npi_small" true).
Proof. by vm_compute. Qed.

Lemma parse_drop_state_abbreviations :
  parse_sql "drop table if exists state_abbreviations cascade "
  = Some (DropTableIfExists "state_abbreviations" true).
Proof. by vm_compute. Qed.

Lemma parse_drop_prod :
  parse_sql "drop table if exists prod_count_providers_by_state"
  = Some (DropTableIfExists "prod_count_providers_by_state" false).
Proof. by vm_compute. Qed.

Lemma parse_rename_prod :
  parse_sql "alter table count_providers_by_state rename to prod_count_providers_by_state"
  = Some (AlterTableRename "count_providers_by_state" "prod_count_providers_by_state").
Proof. by vm_compute. Qed.

Lemma connect_Ok url w (db : Database) :
  w_dbs w !! url = Some db ->
  connect url w =
    (Ok url, {| w_fs := w_fs w; w_dbs := w_dbs w; w_now := w_now w;
                w_trace := w_trace w ++ [EvConnect url] |}).
Proof. intros H. unfold connect, bind, emit. cbn. by rewrite H. Qed.

Lemma connect_Raise url w :
  w_dbs w !! url = None ->
  connect url w =
    (Raise (OperationalError ("could not connect to server: " +:+ url)),
     {| w_fs := w_fs w; w_dbs := w_dbs w; w_now := w_now w;
        w_trace := w_trace w ++ [EvConnect url] |}).
Proof. intros H. unfold connect, bind, emit. cbn. by rewrite H. Qed.

Lemma on_database_eq url f w (db : Database) :
  w_dbs w !! url = Some db ->
  on_database url f w =
    match f db with
    | Ok db' => (Ok tt, {| w_fs := w_fs w; w_dbs := <[url := db']> (w_dbs w);
                           w_now := w_now w; w_trace := w_trace w |})
    | Raise e => (Raise e, w)
    end.
Proof. intros H. unfold on_database. rewrite H. by destruct (f db). Qed.

Lemma execute_eq conn sql st w (db : Database) :
  parse_sql sql = Some st ->
  w_dbs w !! conn = Some db ->
  execute conn sql w =
    match run_stmt st db with
    | Ok db' => (Ok tt, {| w_fs := w_fs w; w_dbs := <[conn := db']> (w_dbs w);
                           w_now := w_now w;
                           w_trace := w_trace w ++ [EvExecute conn sql] |})
    | Raise e => (Raise e, {| w_fs := w_fs w; w_dbs := w_dbs w; w_now := w_now w;
                              w_trace := w_trace w ++ [EvExecute conn sql] |})
    end.
Proof.
  intros Hp Hdb. unfold execute, bind, emit. cbn. rewrite Hp.
  erewrite on_database_eq by (cbn; exact Hdb).
  by destruct (run_stmt st db).
Qed.

Lemma to_sql_eq X df name (url : string) w (db : Database) :
  w_dbs w !! url = Some db ->
  to_sql X df name url "replace" false w =
    ((to_sql_on X df name db).2,
     {| w_fs := w_fs w; w_dbs := <[url := (to_sql_on X df name db).1]> (w_dbs w);
        w_now := w_now w; w_trace := w_trace w ++ [EvToSql url name] |}).
Proof.
  intros Hdb. unfold to_sql, to_sql_on, bind, emit, lift, on_database_partial.
  destruct (check_frame df "replace") as [[]|e]; cbn [fst snd w_fs w_dbs w_now w_trace].
  - by rewrite Hdb.
  - by rewrite (insert_id (w_dbs w) url db Hdb).
Qed.

(** ** The publisher *)

(** The two statements of [publish_to_prod] on a server that answers. *)
Lemma publish_eq url w (db : Database) :
  w_dbs w !! url = Some db ->
  publish_to_prod (Some url) w =
    let drop_it := EvExecute url "drop table if exists prod_count_providers_by_state" in
    let rename_it :=
      EvExecute url
        "alter table count_providers_by_state rename to prod_count_providers_by_state" in
    match run_stmt (DropTableIfExists "prod_count_providers_by_state" false) db with
    | Raise e =>
        (Raise e, {| w_fs := w_fs w; w_dbs := w_dbs w; w_now := w_now w;
                     w_trace := w_trace w ++ [EvConnect url; drop_it] |})
    | Ok db1 =>
        match run_stmt (AlterTableRename "count_providers_by_state"
                          "prod_count_providers_by_state") db1 with
        | Raise e =>
            (Raise e, {| w_fs := w_fs w; w_dbs := <[url := db1]> (w_dbs w);
                         w_now := w_now w;
                         w_trace := w_trace w ++ [EvConnect url; drop_it; rename_it] |})
        | Ok db2 =>
            (Ok PyNone, {| w_fs := w_fs w; w_dbs := <[url := db2]> (w_dbs w);
                           w_now := w_now w;
                           w_trace := w_trace w ++ [EvConnect url; drop_it; rename_it] |})
        end
    end.
Proof.
  intros Hdb. unfold publish_to_prod, create_engine.
  rewrite (bind_Ok _ _ w url w) by done.
  erewrite bind_Ok by (by eapply connect_Ok).
  unfold bind at 1.
  erewrite execute_eq by (first [apply parse_drop_prod | exact Hdb]).
  destruct (run_stmt (DropTableIfExists _ _) db) as [db1|e]; cbn -[run_stmt].
  2:{ by rewrite <- app_assoc. }
  unfold bind at 1.
  erewrite execute_eq by (first [apply parse_rename_prod | cbn; apply lookup_insert_eq]).
  destruct (run_stmt (AlterTableRename _ _) db1) as [db2|e]; cbn -[run_stmt].
  - unfold ret. rewrite insert_insert_eq, <- !app_assoc. done.
  - by rewrite <- !app_assoc.
Qed.

Lemma filter_none {A} (P : A -> Prop) `{!∀ x, Decision (P x)} (l : list A) :
  (∀ x, x ∈ l -> ¬ P x) -> filter P l = [].
Proof.
  induction l as [|a l IH]; intros Hl; [done|].
  rewrite filter_cons_False by (apply Hl; left).
  apply IH. intros x Hx. apply Hl. by right.
Qed.

Lemma tables_named_free (db : Database) name :
  db !! name = None -> tables_named db name = [].
Proof.
  intros H. unfold tables_named. rewrite filter_none; [done|].
  intros [n x] Hin Hn. cbn in Hn. subst n.
  apply elem_of_map_to_list in Hin. by rewrite H in Hin.
Qed.

Lemma tables_named_lookup (db : Database) name t :
  db !! name = Some t -> tables_named db name = [t].
Proof.
  intros H. unfold tables_named.
  assert (Hp : map_to_list db ≡ₚ (name, t) :: map_to_list (delete name db)).
  { rewrite <- (insert_id db name t H) at 1. rewrite <- insert_delete_eq.
    apply map_to_list_insert, lookup_delete_eq. }
  assert (Hnil : filter (fun e : string * Table => e.1 = name)
                   (map_to_list (delete name db)) = []).
  { apply filter_none. intros [n x] Hin Heq. cbn in Heq. subst n.
    apply elem_of_map_to_list in Hin. by rewrite lookup_delete_eq in Hin. }
  apply Permutation_singleton_r.
  rewrite Hp, filter_cons_True by done. cbn. by rewrite Hnil.
Qed.

(** C2.  Whenever [publish_to_prod] completes, the database it connected to
    holds exactly one table under the production name, with the columns and
    rows (the very table) that [count_providers_by_state] named before; that
    name is free afterwards; the drop of the old production table came
    before the rename; and no other table changed. *)
Theorem publish_to_prod_renames URL w v w' :
  publish_to_prod URL w = (Ok v, w') ->
  ∃ url (db db' : Database) t,
    URL = Some url ∧ w_dbs w !! url = Some db ∧ w_dbs w' !! url = Some db' ∧
    db !! "count_providers_by_state" = Some t ∧
    tables_named db' "prod_count_providers_by_state" = [t] ∧
    db' !! "count_providers_by_state" = None ∧
    tables_named db' "count_providers_by_state" = [] ∧
    events (publish_to_prod URL) w =
      [EvConnect url;
       EvExecute url "drop table if exists prod_count_providers_by_state";
       EvExecute url
         "alter table count_providers_by_state rename to prod_count_providers_by_state"] ∧
    (∀ n, n ≠ "prod_count_providers_by_state" -> n ≠ "count_providers_by_state" ->
          db' !! n = db !! n).
Proof.
  intros Hrun. destruct URL as [url|]; [|discriminate Hrun].
  destruct (w_dbs w !! url) as [db|] eqn:Hdb.
  2:{ unfold publish_to_prod, create_engine in Hrun.
      rewrite (bind_Ok _ _ w url w) in Hrun by done.
      erewrite bind_Raise in Hrun by (by apply connect_Raise). discriminate Hrun. }
  pose proof (publish_eq url w db Hdb) as Heq. cbn zeta in Heq.
  assert (Hev : ∀ l, w_trace w' = w_trace w ++ l -> events (publish_to_prod (Some url)) w = l).
  { intros l Hl. apply events_app. by rewrite Hrun. }
  rewrite Heq in Hrun. clear Heq.
  destruct (run_stmt (DropTableIfExists _ _) db) as [db1|e] eqn:Hdrop; [|discriminate Hrun].
  destruct (run_stmt (AlterTableRename _ _) db1) as [db2|e] eqn:Hren; [|discriminate Hrun].
  injection Hrun as <- <-.
  assert (H1 : db1 !! "prod_count_providers_by_state" = None ∧
               ∀ n, n ≠ "prod_count_providers_by_state" -> db1 !! n = db !! n).
  { cbn in Hdrop. destruct (db !! "prod_count_providers_by_state") as [old|] eqn:Hold.
    - destruct (t_dependents old); [|discriminate Hdrop]. injection Hdrop as <-.
      split; [apply lookup_delete_eq|]. intros n Hn. by apply lookup_delete_ne.
    - injection Hdrop as <-. done. }
  destruct H1 as [Hfree Hsame].
  cbn in Hren. destruct (db1 !! "count_providers_by_state") as [t|] eqn:Ht; [|discriminate Hren].
  rewrite Hfree in Hren. rewrite bool_decide_eq_false_2 in Hren by (by intros [? ?]).
  injection Hren as <-.
  assert (Hgone : <["prod_count_providers_by_state" := t]>
                    (delete "count_providers_by_state" db1)
                  !! "count_providers_by_state" = None).
  { rewrite lookup_insert_ne by done. apply lookup_delete_eq. }
  exists url, db, (<["prod_count_providers_by_state" := t]>
                    (delete "count_providers_by_state" db1)), t.
  split_and!; try done.
  - cbn. apply lookup_insert_eq.
  - rewrite <- Hsame by done. exact Ht.
  - apply tables_named_lookup, lookup_insert_eq.
  - by apply tables_named_free.
  - by apply Hev.
  - intros n Hp Hc. rewrite lookup_insert_ne, lookup_delete_ne by done. by apply Hsame.
Qed.

(** The sample database after [dbt]: the publisher returns, and leaves what
    [publish_to_prod_renames] says. *)
Lemma publish_to_prod_renames_witness :
  publish_to_prod (Some sample_url) sample_built
    = (Ok PyNone, (publish_to_prod (Some sample_url) sample_built).2) ∧
  ∃ url (db db' : Database) t,
    Some sample_url = Some url ∧ w_dbs sample_built !! url = Some db ∧
    w_dbs (publish_to_prod (Some sample_url) sample_built).2 !! url = Some db' ∧
    db !! "count_providers_by_state" = Some t ∧
    tables_named db' "prod_count_providers_by_state" = [t] ∧
    db' !! "count_providers_by_state" = None ∧
    tables_named db' "count_providers_by_state" = [] ∧
    events (publish_to_prod (Some sample_url)) sample_built =
      [EvConnect url;
       EvExecute url "drop table if exists prod_count_providers_by_state";
       EvExecute url
         "alter table count_providers_by_state rename to prod_count_providers_by_state"] ∧
    (∀ n, n ≠ "prod_count_providers_by_state" -> n ≠ "count_providers_by_state" ->
          db' !! n = db !! n).
Proof.
  assert (H : publish_to_prod (Some sample_url) sample_built
              = (Ok PyNone, (publish_to_prod (Some sample_url) sample_built).2))
    by (vm_compute; reflexivity).
  split; [exact H|].
  exact (publish_to_prod_renames (Some sample_url) sample_built PyNone _ H).
Defined.

(** C10.  The publisher's drop carries no [CASCADE], the loader's two drops
    do.  On a production table that other objects depend on, the drop is
    refused: [publish_to_prod] raises at that statement, the rename is never
    sent, and every database is as it was, the old production table
    included. *)
Theorem publish_to_prod_drop_refused url w (db : Database) t d ds :
  w_dbs w !! url = Some db ->
  db !! "prod_count_providers_by_state" = Some t ->
  t_dependents t = d :: ds ->
  parse_sql "drop table if exists prod_count_providers_by_state"
    = Some (DropTableIfExists "prod_count_providers_by_state" false) ∧
  parse_sql "drop table if exists npi_small cascade "
    = Some (DropTableIfExists "npi_small" true) ∧
  parse_sql "drop table if exists state_abbreviations cascade "
    = Some (DropTableIfExists "state_abbreviations" true) ∧
  (∃ msg, (publish_to_prod (Some url) w).1 = Raise (InternalError msg)) ∧
  events (publish_to_prod (Some url)) w =
    [EvConnect url; EvExecute url "drop table if exists prod_count_providers_by_state"] ∧
  w_dbs (publish_to_prod (Some url) w).2 = w_dbs w ∧
  w_dbs (publish_to_prod (Some url) w).2 !! url ≫= (.!! "prod_count_providers_by_state")
    = Some t.
Proof.
  intros Hdb Ht Hdeps.
  split; [apply parse_drop_prod|].
  split; [apply parse_drop_npi_small|].
  split; [apply parse_drop_state_abbreviations|].
  assert (Hrun : ∃ msg, publish_to_prod (Some url) w =
    (Raise (InternalError msg),
     {| w_fs := w_fs w; w_dbs := w_dbs w; w_now := w_now w;
        w_trace := w_trace w ++
          [EvConnect url;
           EvExecute url "drop table if exists prod_count_providers_by_state"] |})).
  { rewrite (publish_eq url w db Hdb). cbn. rewrite Ht, Hdeps. eauto. }
  destruct Hrun as [msg Hrun].
  split; [exists msg; by rewrite Hrun|].
  split; [apply events_app; by rewrite Hrun|].
  rewrite Hrun. cbn. split; [done|]. rewrite Hdb. exact Ht.
Qed.

(** The sample database with a view over the production table. *)
Lemma publish_to_prod_drop_refused_witness :
  (∃ msg, (publish_to_prod (Some sample_url) sample_watched).1 = Raise (InternalError msg)) ∧
  events (publish_to_prod (Some sample_url)) sample_watched =
    [EvConnect sample_url;
     EvExecute sample_url "drop table if exists prod_count_providers_by_state"] ∧
  w_dbs (publish_to_prod (Some sample_url) sample_watched).2 = w_dbs sample_watched.
Proof.
  pose proof (publish_to_prod_drop_refused sample_url sample_watched
    (<["prod_count_providers_by_state" :=
         {| t_columns := ["state"; "count"]; t_rows := [];
            t_dependents := ["dashboard_counts"] |}]>
       (<["count_providers_by_state" := sample_counts]> sample_db))
    {| t_columns := ["state"; "count"]; t_rows := []; t_dependents := ["dashboard_counts"] |}
    "dashboard_counts" []) as H.
  destruct H as (_ & _ & _ & Hmsg & Hev & Hdbs & _);
    [vm_compute; reflexivity | vm_compute; reflexivity | reflexivity |].
  exact (conj Hmsg (conj Hev Hdbs)).
Defined.

(** ** The loader *)

Lemma run_drop_cascade name (db : Database) :
  run_stmt (DropTableIfExists name true) db = Ok (delete name db).
Proof.
  cbn. destruct (db !! name) eqn:H; [done|]. by rewrite delete_id.
Qed.

Lemma dict_comprehension_lookup f keys (d0 : gmap string string) c :
  foldl (fun d k => <[k := f k]> d) d0 keys !! c
  = if bool_decide (c ∈ keys) then Some (f c) else d0 !! c.
Proof.
  revert d0. induction keys as [|k keys IH]; intros d0; [done|].
  cbn [foldl]. rewrite IH.
  destruct (decide (c ∈ keys)) as [Hin|Hin].
  - rewrite !bool_decide_eq_true_2; [done| by right | done].
  - rewrite (bool_decide_eq_false_2 (c ∈ keys)) by done.
    destruct (decide (c = k)) as [->|Hne].
    + rewrite bool_decide_eq_true_2 by left. apply lookup_insert_eq.
    + rewrite bool_decide_eq_false_2 by (by intros [?|?]%elem_of_cons).
      by apply lookup_insert_ne.
Qed.

(** Renaming with [{c: c.lower() for c in columns}] lower-cases every label. *)
Lemma rename_columns_lower X df :
  rename_columns (dict_comprehension (str_lower X) (df_columns df)) df
  = lower_columns X df.
Proof.
  unfold rename_columns, lower_columns. f_equal.
  apply list_fmap_ext. intros i c Hc. unfold dict_comprehension.
  rewrite dict_comprehension_lookup, lookup_empty.
  rewrite bool_decide_eq_true_2; [done|]. by eapply list_elem_of_lookup_2.
Qed.

(** On ASCII text [str.lower] folds the letters A-Z and nothing else. *)
Lemma str_lower_ascii X s : is_ascii s = true -> str_lower X s = lower s.
Proof. intros H. unfold str_lower. by rewrite H. Qed.

Lemma read_csv_eq X path w :
  read_csv X path w =
    (csv_frame X (w_fs w) path,
     {| w_fs := w_fs w; w_dbs := w_dbs w; w_now := w_now w;
        w_trace := w_trace w ++ [EvReadCsv path] |}).
Proof. unfold read_csv, csv_frame, bind, emit. cbn. by destruct (w_fs w !! path). Qed.

(** *** One column per label *)

Lemma put_last_fresh k v (acc : list (string * cell)) :
  k ∉ acc.*1 -> put_last k v acc = acc ++ [(k, v)].
Proof.
  induction acc as [|[k' v'] acc IH]; intros Hk; [done|].
  cbn [put_last]. rewrite fmap_cons, not_elem_of_cons in Hk. destruct Hk as [Hne Hk].
  destruct (String.eqb_spec k' k) as [->|_]; [done|].
  cbn. by rewrite IH.
Qed.

Lemma by_label_from (kvs acc : list (string * cell)) :
  NoDup ((acc ++ kvs).*1) ->
  foldl (fun acc kv => put_last kv.1 kv.2 acc) acc kvs = acc ++ kvs.
Proof.
  revert acc. induction kvs as [|[k v] kvs IH]; intros acc Hnd.
  - by rewrite app_nil_r.
  - cbn [foldl fst snd]. rewrite put_last_fresh.
    + rewrite IH; rewrite <- app_assoc; [done|exact Hnd].
    + rewrite fmap_app, fmap_cons in Hnd.
      apply NoDup_app in Hnd as (_ & Hnd & _).
      intros Hin. apply (Hnd k Hin). left.
Qed.

Lemma by_label_NoDup labels (row : list cell) :
  NoDup labels -> length row = length labels -> by_label labels row = zip labels row.
Proof.
  intros Hnd Hlen. unfold by_label. rewrite by_label_from; [done|].
  cbn [app]. rewrite fst_zip by lia. exact Hnd.
Qed.

(** A frame whose labels differ is written column for column. *)
Lemma table_of_frame_NoDup df :
  NoDup (df_columns df) ->
  Forall (fun r => length r = length (df_columns df)) (df_rows df) ->
  table_of_frame df false = fresh_table (df_columns df) (df_rows df).
Proof.
  intros Hnd Hrect. unfold table_of_frame, fresh_table. f_equal.
  - rewrite by_label_NoDup by (done || by rewrite length_replicate).
    apply fst_zip. by rewrite length_replicate.
  - rewrite <- (list_fmap_id (df_rows df)) at 2.
    apply Forall_fmap_ext_1. eapply Forall_impl; [exact Hrect|].
    intros r Hr. cbn beta in Hr. cbn. rewrite by_label_NoDup by done.
    apply snd_zip. by rewrite Hr.
Qed.

(** *** [to_sql] under a name that is free *)

Lemma to_sql_on_kept X name df (db : Database) kept :
  has_uint64 df = false ->
  pg_store X name (table_of_frame df false) = (Some kept, Ok tt) ->
  db !! name = None ->
  to_sql_on X df name db
  = (<[name := fresh_table (t_columns kept) (t_rows kept)]> db, Ok tt).
Proof.
  intros Hu Hst Hfree. unfold to_sql_on, check_frame, write_frame. rewrite Hu, Hfree.
  rewrite bool_decide_eq_true_2 by set_solver. cbn [negb]. by rewrite Hst.
Qed.

Lemma to_sql_on_storable X name df (db : Database) :
  storable X name df ->
  db !! name = None ->
  to_sql_on X df name db
  = (<[name := fresh_table (df_columns df) (df_rows df)]> db, Ok tt).
Proof.
  intros (Hrect & Hu & Hnd & Hst) Hfree.
  rewrite (to_sql_on_kept X name df db (fresh_table (df_columns df) (df_rows df)));
    [done|done| |done].
  by rewrite table_of_frame_NoDup.
Qed.

(** Whatever [to_sql] does under a free name, it leaves no other table
    changed, and a table without dependent objects if it leaves one. *)
Lemma to_sql_on_shape X name df (db : Database) :
  db !! name = None ->
  ∃ o : option Table,
    (to_sql_on X df name db).1
      = match o with Some t => <[name := t]> db | None => db end ∧
    ∀ t, o = Some t -> t_dependents t = [].
Proof.
  intros Hfree. unfold to_sql_on.
  destruct (check_frame df "replace") as [[]|e]; [|by exists None].
  unfold write_frame. rewrite Hfree. cbn [fst].
  destruct (pg_store X name (table_of_frame df false)).1 as [kept|]; [|by exists None].
  eexists (Some _). split; [done|]. by intros t [= <-].
Qed.

(** [load_files_into_db] on a server that answers does what [load_outcome]
    writes out. *)
Lemma load_eq X PATH url ds kwargs w (db : Database) :
  w_dbs w !! url = Some db ->
  load_files_into_db X (Some url) PATH ds kwargs w =
    (let '(r, db', evs) := load_outcome X PATH url (w_fs w) db in
     (r, {| w_fs := w_fs w; w_dbs := <[url := db']> (w_dbs w); w_now := w_now w;
            w_trace := w_trace w ++ EvConnect url :: evs |})).
Proof.
  intros Hdb. unfold load_files_into_db, create_engine, load_outcome.
  rewrite (bind_Ok _ _ w url w) by done.
  erewrite bind_Ok by (by eapply connect_Ok).
  unfold bind at 1.
  erewrite execute_eq by (first [apply parse_drop_npi_small | exact Hdb]).
  rewrite run_drop_cascade. cbn [w_fs w_dbs w_now w_trace].
  unfold bind at 1.
  erewrite execute_eq
    by (first [apply parse_drop_state_abbreviations | cbn; apply lookup_insert_eq]).
  rewrite run_drop_cascade. cbn [w_fs w_dbs w_now w_trace].
  rewrite insert_insert_eq, <- !app_assoc. cbn [app].
  set (db0 := delete "state_abbreviations" (delete "npi_small" db)).
  unfold bind at 1, lift.
  destruct (os_path_join PATH "data/npi_small.csv") as [p1|e]; [|done].
  unfold bind at 1. rewrite read_csv_eq. cbn [w_fs w_dbs w_now w_trace].
  destruct (csv_frame X (w_fs w) p1) as [df1|e]; [|by rewrite <- !app_assoc].
  rewrite rename_columns_lower.
  unfold bind at 1.
  erewrite to_sql_eq by (cbn; apply lookup_insert_eq).
  cbn [w_fs w_dbs w_now w_trace].
  rewrite insert_insert_eq, <- !app_assoc. cbn [app].
  destruct (to_sql_on X (lower_columns X df1) "npi_small" db0) as [db1 [[]|e]];
    cbn [fst snd]; [|done].
  unfold bind at 1.
  destruct (os_path_join PATH "data/state_abbreviations.csv") as [p2|e]; [|done].
  unfold bind at 1. rewrite read_csv_eq. cbn [w_fs w_dbs w_now w_trace].
  destruct (csv_frame X (w_fs w) p2) as [df2|e]; [|by rewrite <- !app_assoc].
  unfold bind at 1.
  erewrite to_sql_eq by (cbn; apply lookup_insert_eq).
  cbn [w_fs w_dbs w_now w_trace].
  rewrite insert_insert_eq, <- !app_assoc. cbn [app].
  by destruct (to_sql_on X df2 "state_abbreviations" db1) as [db2 [[]|e]].
Qed.

Lemma load_outcome_kept X PATH url fs (db : Database) p1 p2 df1 df2 kept1 kept2 :
  os_path_join PATH "data/npi_small.csv" = Ok p1 ->
  csv_frame X fs p1 = Ok df1 ->
  has_uint64 df1 = false ->
  pg_store X "npi_small" (table_of_frame (lower_columns X df1) false)
    = (Some kept1, Ok tt) ->
  os_path_join PATH "data/state_abbreviations.csv" = Ok p2 ->
  csv_frame X fs p2 = Ok df2 ->
  has_uint64 df2 = false ->
  pg_store X "state_abbreviations" (table_of_frame df2 false) = (Some kept2, Ok tt) ->
  load_outcome X PATH url fs db =
    (Ok (PyStr "Loaded files into the database"),
     <["state_abbreviations" := fresh_table (t_columns kept2) (t_rows kept2)]>
       (<["npi_small" := fresh_table (t_columns kept1) (t_rows kept1)]>
          (delete "state_abbreviations" (delete "npi_small" db))),
     [EvExecute url "drop table if exists npi_small cascade ";
      EvExecute url "drop table if exists state_abbreviations cascade ";
      EvReadCsv p1; EvToSql url "npi_small";
      EvReadCsv p2; EvToSql url "state_abbreviations"]).
Proof.
  intros H1 H2 Hu1 Hs1 H3 H4 Hu2 Hs2. unfold load_outcome. rewrite H1, H2.
  rewrite (to_sql_on_kept X "npi_small" (lower_columns X df1) _ kept1 Hu1 Hs1)
    by (rewrite lookup_delete_ne by done; apply lookup_delete_eq).
  cbn [fst snd]. rewrite H3, H4.
  rewrite (to_sql_on_kept X "state_abbreviations" _ _ kept2 Hu2 Hs2)
    by (rewrite lookup_insert_ne by done; apply lookup_delete_eq).
  done.
Qed.

Lemma load_outcome_Ok X PATH url fs (db : Database) p1 p2 df1 df2 :
  os_path_join PATH "data/npi_small.csv" = Ok p1 ->
  csv_frame X fs p1 = Ok df1 ->
  storable X "npi_small" (lower_columns X df1) ->
  os_path_join PATH "data/state_abbreviations.csv" = Ok p2 ->
  csv_frame X fs p2 = Ok df2 ->
  storable X "state_abbreviations" df2 ->
  load_outcome X PATH url fs db =
    (Ok (PyStr "Loaded files into the database"),
     <["state_abbreviations" := fresh_table (df_columns df2) (df_rows df2)]>
       (<["npi_small" := fresh_table (str_lower X <$> df_columns df1) (df_rows df1)]>
          (delete "state_abbreviations" (delete "npi_small" db))),
     [EvExecute url "drop table if exists npi_small cascade ";
      EvExecute url "drop table if exists state_abbreviations cascade ";
      EvReadCsv p1; EvToSql url "npi_small";
      EvReadCsv p2; EvToSql url "state_abbreviations"]).
Proof.
  intros H1 H2 Hs1 H3 H4 Hs2. unfold load_outcome. rewrite H1, H2.
  rewrite (to_sql_on_storable X "npi_small" _ _ Hs1)
    by (rewrite lookup_delete_ne by done; apply lookup_delete_eq).
  cbn [fst snd]. rewrite H3, H4.
  rewrite (to_sql_on_storable X "state_abbreviations" _ _ Hs2)
    by (rewrite lookup_insert_ne by done; apply lookup_delete_eq).
  done.
Qed.

(** The database a load leaves, whatever its outcome: the one it found
    without the two tables, and with what [to_sql] has put under the two
    names, neither with a dependent object. *)
Lemma load_outcome_db X PATH url fs (db : Database) :
  ∃ o1 o2 : option Table,
    (load_outcome X PATH url fs db).1.2
      = (let db0 : Database := delete "state_abbreviations" (delete "npi_small" db) in
         let db1 : Database :=
           match o1 with Some t => <["npi_small" := t]> db0 | None => db0 end in
         match o2 with Some t => <["state_abbreviations" := t]> db1 | None => db1 end) ∧
    (∀ t, o1 = Some t -> t_dependents t = []) ∧
    (∀ t, o2 = Some t -> t_dependents t = []).
Proof.
  unfold load_outcome.
  set (db0 := delete "state_abbreviations" (delete "npi_small" db)).
  assert (Hnone : ∃ o1 o2 : option Table,
    db0 = match o2 with
          | Some t =>
              <["state_abbreviations" := t]>
                (match o1 with Some t => <["npi_small" := t]> db0 | None => db0 end)
          | None => match o1 with Some t => <["npi_small" := t]> db0 | None => db0 end
          end ∧
    (∀ t, o1 = Some t -> t_dependents t = []) ∧
    (∀ t, o2 = Some t -> t_dependents t = [])) by (by exists None, None).
  destruct (os_path_join PATH "data/npi_small.csv") as [p1|e]; [|exact Hnone].
  destruct (csv_frame X fs p1) as [df1|e]; [|exact Hnone].
  clear Hnone.
  destruct (to_sql_on_shape X "npi_small" (lower_columns X df1) db0) as (o1 & H1 & Hd1).
  { unfold db0. rewrite lookup_delete_ne by done. apply lookup_delete_eq. }
  destruct (to_sql_on X (lower_columns X df1) "npi_small" db0) as [db1 r1].
  cbn [fst snd] in *. subst db1.
  assert (Hone : ∃ o1' o2 : option Table,
    match o1 with Some t => <["npi_small" := t]> db0 | None => db0 end
      = match o2 with
        | Some t =>
            <["state_abbreviations" := t]>
              (match o1' with Some t => <["npi_small" := t]> db0 | None => db0 end)
        | None => match o1' with Some t => <["npi_small" := t]> db0 | None => db0 end
        end ∧
    (∀ t, o1' = Some t -> t_dependents t = []) ∧
    (∀ t, o2 = Some t -> t_dependents t = [])) by (by exists o1, None).
  destruct r1 as [[]|e]; [|exact Hone].
  destruct (os_path_join PATH "data/state_abbreviations.csv") as [p2|e]; [|exact Hone].
  destruct (csv_frame X fs p2) as [df2|e]; [|exact Hone].
  clear Hone. cbn [fst snd].
  destruct (to_sql_on_shape X "state_abbreviations" df2
              (match o1 with Some t => <["npi_small" := t]> db0 | None => db0 end))
    as (o2 & H2 & Hd2).
  { unfold db0. destruct o1; [rewrite lookup_insert_ne by done|]; apply lookup_delete_eq. }
  exists o1, o2. by rewrite H2.
Qed.

(** C3.  With both CSV files in place, a server that answers, and two
    frames that [to_sql] writes as they are (every record as long as the
    header, no uint64 column, labels that differ, for [npi_small] after
    lower-casing, and a server that takes the table and its rows), the
    loader succeeds and leaves exactly one table [npi_small] and one table
    [state_abbreviations]: each holds the rows of its frame and no column
    besides the frame's (no index column); the labels of [npi_small] are
    lower-cased, those of [state_abbreviations] are the header's.  A frame
    with header NPI, Name and the row (123, 'Acme') gives the table with
    columns npi, name and that row. *)
Theorem load_files_into_db_replaces X url PATH ds kwargs w (db : Database)
    p1 p2 text1 text2 df1 df2 :
  w_dbs w !! url = Some db ->
  os_path_join PATH "data/npi_small.csv" = Ok p1 ->
  w_fs w !! p1 = Some text1 ->
  pd_parse X text1 = Ok df1 ->
  storable X "npi_small" (lower_columns X df1) ->
  os_path_join PATH "data/state_abbreviations.csv" = Ok p2 ->
  w_fs w !! p2 = Some text2 ->
  pd_parse X text2 = Ok df2 ->
  storable X "state_abbreviations" df2 ->
  ∃ w' (db' : Database),
    load_files_into_db X (Some url) PATH ds kwargs w
      = (Ok (PyStr "Loaded files into the database"), w') ∧
    w_dbs w' !! url = Some db' ∧
    tables_named db' "npi_small"
      = [{| t_columns := str_lower X <$> df_columns df1; t_rows := df_rows df1;
            t_dependents := [] |}] ∧
    tables_named db' "state_abbreviations"
      = [{| t_columns := df_columns df2; t_rows := df_rows df2; t_dependents := [] |}] ∧
    (df_columns df1 = ["NPI"; "Name"] -> df_rows df1 = [[CInt 123; CStr "Acme"]] ->
     db' !! "npi_small"
       = Some {| t_columns := ["npi"; "name"]; t_rows := [[CInt 123; CStr "Acme"]];
                 t_dependents := [] |}).
Proof.
  intros Hdb Hp1 Hf1 Hd1 Hs1 Hp2 Hf2 Hd2 Hs2.
  assert (Hc1 : csv_frame X (w_fs w) p1 = Ok df1) by (unfold csv_frame; by rewrite Hf1).
  assert (Hc2 : csv_frame X (w_fs w) p2 = Ok df2) by (unfold csv_frame; by rewrite Hf2).
  rewrite (load_eq X PATH url ds kwargs w db Hdb).
  rewrite (load_outcome_Ok X PATH url (w_fs w) db p1 p2 df1 df2 Hp1 Hc1 Hs1 Hp2 Hc2 Hs2).
  eexists _, _. split; [reflexivity|]. cbn [w_dbs].
  split; [apply lookup_insert_eq|].
  assert (Hnpi : ∀ (d : Database) t1 t2,
    <["state_abbreviations" := t2]> (<["npi_small" := t1]> d) !! "npi_small" = Some t1).
  { intros d t1 t2. rewrite lookup_insert_ne by done. apply lookup_insert_eq. }
  split; [apply tables_named_lookup, Hnpi|].
  split; [apply tables_named_lookup, lookup_insert_eq|].
  intros Hcols Hrows. rewrite Hnpi. unfold fresh_table. by rewrite Hcols, Hrows.
Qed.

(** The scenario: [npi_small.csv] holds the header NPI,Name and the record
    123,Acme. *)
Lemma load_files_into_db_replaces_witness :
  ∃ w' (db' : Database),
    load_files_into_db (sample_externals true) (Some sample_url) (Some "/project")
        PyNone ∅ sample_world
      = (Ok (PyStr "Loaded files into the database"), w') ∧
    w_dbs w' !! sample_url = Some db' ∧
    tables_named db' "npi_small"
      = [{| t_columns := ["npi"; "name"]; t_rows := [[CInt 123; CStr "Acme"]];
            t_dependents := [] |}] ∧
    tables_named db' "state_abbreviations"
      = [{| t_columns := ["name"; "abbreviation"];
            t_rows := [[CStr "Alabama"; CStr "AL"]]; t_dependents := [] |}].
Proof.
  assert (Hs1 : storable (sample_externals true) "npi_small"
                  (lower_columns (sample_externals true)
                     {| df_columns := ["NPI"; "Name"]; df_index := [CInt 0];
                        df_rows := [[CInt 123; CStr "Acme"]] |})).
  { split_and!; [by repeat constructor|reflexivity| |reflexivity].
    apply (bool_decide_unpack _). vm_compute. exact I. }
  assert (Hs2 : storable (sample_externals true) "state_abbreviations"
                  {| df_columns := ["name"; "abbreviation"]; df_index := [CInt 0];
                     df_rows := [[CStr "Alabama"; CStr "AL"]] |}).
  { split_and!; [by repeat constructor|reflexivity| |reflexivity].
    apply (bool_decide_unpack _). vm_compute. exact I. }
  destruct (load_files_into_db_replaces (sample_externals true) sample_url (Some "/project")
              PyNone ∅ sample_world sample_db
              "/project/data/npi_small.csv" "/project/data/state_abbreviations.csv"
              sample_npi_csv sample_states_csv
              {| df_columns := ["NPI"; "Name"]; df_index := [CInt 0];
                 df_rows := [[CInt 123; CStr "Acme"]] |}
              {| df_columns := ["name"; "abbreviation"]; df_index := [CInt 0];
                 df_rows := [[CStr "Alabama"; CStr "AL"]] |})
    as (w' & db' & Hrun & Hdb & Hnpi & Hst & _);
    try (vm_compute; reflexivity); try assumption.
  exists w', db'. exact (conj Hrun (conj Hdb (conj Hnpi Hst))).
Defined.

(** Without the side condition the statement fails.  The file
    [npi_small.csv] with the header NPI,npi and the record 1,2 is read as a
    frame with two columns; the loader returns, and the table it leaves has
    the single column npi and the single value 2: neither the labels of the
    frame lower-cased nor its row. *)
Lemma load_files_into_db_replaces_counterexample :
  ∃ df1 w' (db' : Database),
    w_fs sample_clash !! "/project/data/npi_small.csv" = Some sample_clash_csv ∧
    pd_parse (sample_externals true) sample_clash_csv = Ok df1 ∧
    df_columns df1 = ["NPI"; "npi"] ∧
    df_rows df1 = [[CInt 1; CInt 2]] ∧
    load_files_into_db (sample_externals true) (Some sample_url) (Some "/project")
        PyNone ∅ sample_clash
      = (Ok (PyStr "Loaded files into the database"), w') ∧
    w_dbs w' !! sample_url = Some db' ∧
    tables_named db' "npi_small"
      = [{| t_columns := ["npi"]; t_rows := [[CInt 2]]; t_dependents := [] |}] ∧
    tables_named db' "npi_small"
      ≠ [{| t_columns := str_lower (sample_externals true) <$> df_columns df1;
            t_rows := df_rows df1; t_dependents := [] |}].
Proof.
  exists {| df_columns := ["NPI"; "npi"]; df_index := [CInt 0];
            df_rows := [[CInt 1; CInt 2]] |}.
  eexists _, _.
  split; [reflexivity|]. split; [vm_compute; reflexivity|].
  split; [reflexivity|]. split; [reflexivity|].
  assert (Hdb : w_dbs sample_clash !! sample_url = Some sample_db) by reflexivity.
  rewrite (load_eq (sample_externals true) (Some "/project") sample_url PyNone ∅
             sample_clash sample_db Hdb).
  erewrite (load_outcome_kept (sample_externals true) (Some "/project") sample_url
              (w_fs sample_clash) sample_db
              "/project/data/npi_small.csv" "/project/data/state_abbreviations.csv");
    [|vm_compute; reflexivity..].
  split; [reflexivity|]. cbn [w_dbs].
  split; [apply lookup_insert_eq|].
  match goal with
  | |- tables_named ?d _ = _ ∧ _ =>
      assert (Hnpi : d !! "npi_small"
                = Some {| t_columns := ["npi"]; t_rows := [[CInt 2]]; t_dependents := [] |})
  end.
  { rewrite lookup_insert_ne by done. apply lookup_insert_eq. }
  rewrite (tables_named_lookup _ _ _ Hnpi).
  split; [reflexivity|]. intros H. vm_compute in H. discriminate H.
Qed.

Lemma load_outcome_again X PATH url fs (db : Database) :
  load_outcome X PATH url fs (load_outcome X PATH url fs db).1.2
  = load_outcome X PATH url fs db.
Proof.
  assert (Hsame : ∀ db' : Database,
    delete "state_abbreviations" (delete "npi_small" db')
      = delete "state_abbreviations" (delete "npi_small" db) ->
    load_outcome X PATH url fs db' = load_outcome X PATH url fs db).
  { intros db' H. unfold load_outcome. by rewrite H. }
  apply Hsame.
  destruct (load_outcome_db X PATH url fs db) as (o1 & o2 & -> & _). cbn zeta.
  apply map_eq. intros k.
  destruct o1, o2;
    destruct (decide (k = "npi_small")) as [?|?];
    destruct (decide (k = "state_abbreviations")) as [?|?];
    by simplify_map_eq.
Qed.

(** C6.  Running the loader a second time, right after a first run and with
    the files as they were, ends exactly as the first run did: the same
    value or exception, and every database as the first run left it. *)
Theorem load_files_into_db_idempotent X URL PATH ds kwargs ds' kwargs' w :
  let once := load_files_into_db X URL PATH ds kwargs w in
  let twice := load_files_into_db X URL PATH ds' kwargs' once.2 in
  w_fs once.2 = w_fs w ∧
  twice.1 = once.1 ∧
  w_dbs twice.2 = w_dbs once.2.
Proof.
  cbn zeta. destruct URL as [url|]; [|done].
  destruct (w_dbs w !! url) as [db|] eqn:Hdb.
  - rewrite (load_eq X PATH url ds kwargs w db Hdb).
    destruct (load_outcome X PATH url (w_fs w) db) as [[r db'] evs] eqn:Hout.
    cbn [fst snd].
    erewrite load_eq by (cbn; apply lookup_insert_eq). cbn [w_fs w_dbs].
    pose proof (load_outcome_again X PATH url (w_fs w) db) as Hagain.
    rewrite Hout in Hagain. cbn [fst snd] in Hagain. rewrite Hagain.
    cbn. by rewrite insert_insert_eq.
  - assert (Hfail : ∀ ds kwargs w0, w_dbs w0 !! url = None ->
      load_files_into_db X (Some url) PATH ds kwargs w0 =
        (Raise (OperationalError ("could not connect to server: " +:+ url)),
         {| w_fs := w_fs w0; w_dbs := w_dbs w0; w_now := w_now w0;
            w_trace := w_trace w0 ++ [EvConnect url] |})).
    { intros ds0 kw0 w0 H0. unfold load_files_into_db, create_engine.
      rewrite (bind_Ok _ _ w0 url w0) by done.
      by erewrite bind_Raise by (by apply connect_Raise). }
    rewrite (Hfail ds kwargs w Hdb). cbn [fst snd].
    by rewrite Hfail by (cbn; exact Hdb).
Qed.

(** C9.  On a server that answers, the loader's first calls after connecting
    are its two drops, both with [CASCADE]; no CSV file is read before them.
    When the read of [npi_small.csv] fails, the loader raises that error and
    leaves the database without either table; when the read of
    [state_abbreviations.csv] fails, after a first [to_sql] that got
    through, it raises that error and leaves the database without
    [state_abbreviations] and with what [to_sql] has written as [npi_small]:
    the frame with its labels lower-cased, when [to_sql] writes it as it is.
    Either way a table that remains under one of the two names has no
    dependent object: what was dropped is not put back. *)
Theorem load_files_into_db_not_atomic X url PATH ds kwargs w (db : Database) :
  w_dbs w !! url = Some db ->
  let run := load_files_into_db X (Some url) PATH ds kwargs in
  parse_sql "drop table if exists npi_small cascade "
    = Some (DropTableIfExists "npi_small" true) ∧
  parse_sql "drop table if exists state_abbreviations cascade "
    = Some (DropTableIfExists "state_abbreviations" true) ∧
  (∃ rest,
     events run w =
       [EvConnect url;
        EvExecute url "drop table if exists npi_small cascade ";
        EvExecute url "drop table if exists state_abbreviations cascade "] ++ rest) ∧
  (∀ (i : nat) p, events run w !! i = Some (EvReadCsv p) -> (3 ≤ i)%nat) ∧
  (∀ p1 e,
     os_path_join PATH "data/npi_small.csv" = Ok p1 ->
     csv_frame X (w_fs w) p1 = Raise e ->
     (run w).1 = Raise e ∧
     w_dbs (run w).2 !! url
       = Some (delete "state_abbreviations" (delete "npi_small" db))) ∧
  (∀ p1 df1 p2 e,
     let wrote :=
       to_sql_on X (lower_columns X df1) "npi_small"
         (delete "state_abbreviations" (delete "npi_small" db)) in
     os_path_join PATH "data/npi_small.csv" = Ok p1 ->
     csv_frame X (w_fs w) p1 = Ok df1 ->
     wrote.2 = Ok tt ->
     os_path_join PATH "data/state_abbreviations.csv" = Ok p2 ->
     csv_frame X (w_fs w) p2 = Raise e ->
     (run w).1 = Raise e ∧
     w_dbs (run w).2 !! url = Some wrote.1 ∧
     wrote.1 !! "state_abbreviations" = None ∧
     (storable X "npi_small" (lower_columns X df1) ->
      wrote.1 = <["npi_small" :=
                    fresh_table (str_lower X <$> df_columns df1) (df_rows df1)]>
                  (delete "state_abbreviations" (delete "npi_small" db)))) ∧
  (∀ e (db' : Database) name t,
     (run w).1 = Raise e ->
     w_dbs (run w).2 !! url = Some db' ->
     name = "npi_small" ∨ name = "state_abbreviations" ->
     db' !! name = Some t ->
     t_dependents t = []).
Proof.
  intros Hdb run.
  split; [apply parse_drop_npi_small|].
  split; [apply parse_drop_state_abbreviations|].
  unfold run. clear run.
  pose proof (load_eq X PATH url ds kwargs w db Hdb) as Heq.
  assert (Hshape : ∃ rest,
    (load_outcome X PATH url (w_fs w) db).2 =
      [EvExecute url "drop table if exists npi_small cascade ";
       EvExecute url "drop table if exists state_abbreviations cascade "] ++ rest).
  { unfold load_outcome.
    destruct (os_path_join PATH "data/npi_small.csv") as [p1|e];
      [destruct (csv_frame X (w_fs w) p1) as [df1|e];
         [destruct (to_sql_on X (lower_columns X df1) "npi_small" _).2 as [[]|e];
            [destruct (os_path_join PATH "data/state_abbreviations.csv") as [p2|e];
               [destruct (csv_frame X (w_fs w) p2) as [df2|e]|]|]|]|];
      cbn [snd]; rewrite <- ?app_assoc; eauto; by exists []. }
  destruct Hshape as [rest Hrest].
  pose proof (load_outcome_db X PATH url (w_fs w) db) as Hleft.
  destruct (load_outcome X PATH url (w_fs w) db) as [[r db'] evs] eqn:Hout.
  cbn [fst snd] in Hrest, Hleft. subst evs.
  assert (Hev : events (load_files_into_db X (Some url) PATH ds kwargs) w =
    [EvConnect url;
     EvExecute url "drop table if exists npi_small cascade ";
     EvExecute url "drop table if exists state_abbreviations cascade "] ++ rest).
  { apply events_app. by rewrite Heq. }
  split; [by exists rest|].
  split.
  { intros i p. rewrite Hev. destruct i as [|[|[|i]]]; cbn; [done..|lia]. }
  rewrite Heq. cbn [fst snd w_dbs]. rewrite lookup_insert_eq.
  split; [|split].
  - intros p1 e Hp1 Hc1. unfold load_outcome in Hout. rewrite Hp1, Hc1 in Hout.
    by injection Hout as <- <- _.
  - intros p1 df1 p2 e.
    set (wrote := to_sql_on X (lower_columns X df1) "npi_small" _).
    intros Hp1 Hc1 Hw Hp2 Hc2. unfold load_outcome in Hout.
    rewrite Hp1, Hc1 in Hout. cbn zeta in Hout. fold wrote in Hout.
    rewrite Hw, Hp2, Hc2 in Hout. injection Hout as <- <- _.
    assert (Hfree : delete "state_abbreviations" (delete "npi_small" db) !! "npi_small"
                    = None) by (rewrite lookup_delete_ne by done; apply lookup_delete_eq).
    split_and!; [done..| |].
    + destruct (to_sql_on_shape X "npi_small" (lower_columns X df1) _ Hfree)
        as (o & Ho & _).
      fold wrote in Ho. rewrite Ho.
      destruct o; [rewrite lookup_insert_ne by done|]; apply lookup_delete_eq.
    + intros Hs1. unfold wrote. by rewrite (to_sql_on_storable X "npi_small" _ _ Hs1).
  - intros e d name t Hr Hd Hname Ht. injection Hd as <-.
    destruct Hleft as (o1 & o2 & -> & Hd1 & Hd2). cbn zeta in Ht.
    destruct o1 as [t1|], o2 as [t2|]; destruct Hname as [-> | ->];
      simplify_map_eq; eauto.
Qed.

(** A project path without the CSV files: the read fails after the drops. *)
Lemma load_files_into_db_not_atomic_witness :
  (load_files_into_db (sample_externals true) (Some sample_url) (Some "/elsewhere")
     PyNone ∅ sample_world).1
    = Raise (FileNotFoundError "/elsewhere/data/npi_small.csv") ∧
  w_dbs (load_files_into_db (sample_externals true) (Some sample_url) (Some "/elsewhere")
           PyNone ∅ sample_world).2 !! sample_url
    = Some (delete "state_abbreviations" (delete "npi_small" sample_db)).
Proof.
  destruct (load_files_into_db_not_atomic (sample_externals true) sample_url
              (Some "/elsewhere") PyNone ∅ sample_world sample_db)
    as (_ & _ & _ & _ & Hfirst & _); [vm_compute; reflexivity|].
  apply (Hfirst "/elsewhere/data/npi_small.csv"
           (FileNotFoundError "/elsewhere/data/npi_small.csv"));
    vm_compute; reflexivity.
Defined.

(** ** The scheduler on the chain *)

Section Chain.

Variable X : Externals.
Variable GE_TUTORIAL_DB_URL : option string.
Variable GE_TUTORIAL_PROJECT_PATH : option string.

Local Abbreviation the_dag := (dag X GE_TUTORIAL_DB_URL GE_TUTORIAL_PROJECT_PATH).
Local Abbreviation run_task' := (run_task X GE_TUTORIAL_DB_URL GE_TUTORIAL_PROJECT_PATH).
Local Abbreviation step' := (step X GE_TUTORIAL_DB_URL GE_TUTORIAL_PROJECT_PATH).

Lemma dag_edges_chain : dag_edges the_dag = chain_edges.
Proof. reflexivity. Qed.

Lemma dag_task_ids :
  task_id <$> dag_tasks the_dag =
    ["task_load_files_into_db"; "task_dbt"; "task_publish";
     "task_validate_source_data_load"; "task_validate_analytical_output"].
Proof. reflexivity. Qed.

Lemma find_pointwise {A} (f g : A -> bool) (l : list A) :
  (∀ a, f a = g a) -> List.find f l = List.find g l.
Proof. intros H. induction l as [|a l IH]; [done|]. cbn. by rewrite H, IH. Qed.

Lemma forallb_pointwise {A} (f g : A -> bool) (l : list A) :
  (∀ a, f a = g a) -> forallb f l = forallb g l.
Proof. intros H. induction l as [|a l IH]; [done|]. cbn. by rewrite H, IH. Qed.

(** A task's turn comes by the tasks that have a state, whatever the states. *)
Lemma next_task_id_dom ids edges (st1 st2 : gmap string TaskState) :
  dom st1 = dom st2 ->
  next_task_id ids edges st1 = next_task_id ids edges st2.
Proof.
  intros Hdom. unfold next_task_id. apply find_pointwise. intros t.
  assert (Hsome : ∀ u, is_Some (st1 !! u) ↔ is_Some (st2 !! u)).
  { intros u. by rewrite <- !elem_of_dom, Hdom. }
  f_equal.
  - apply bool_decide_ext. rewrite <- !not_elem_of_dom. by rewrite Hdom.
  - unfold decided. apply forallb_pointwise. intros u. apply bool_decide_ext, Hsome.
Qed.

Lemma summary_run_task dr op r :
  summary (run_task' dr op r)
  = advance chain_edges (task_id op) (succeeded X dr op r) (summary r).
Proof.
  unfold run_task, advance, succeeded, summary. rewrite dag_edges_chain. cbn [fst snd].
  destruct (all_success _ _); [|done].
  by destruct (execute_operator _ _ _ _) as [[v|e] w'].
Qed.

Lemma dom_run_task dr op r :
  dom (r_states (run_task' dr op r)) = {[task_id op]} ∪ dom (r_states r).
Proof.
  pose proof (summary_run_task dr op r) as H. apply (f_equal fst) in H.
  cbn [summary fst] in H. rewrite H. unfold advance.
  destruct (all_success _ _); cbn [fst]; apply dom_insert_L.
Qed.

Lemma step_by_dom dr r (D : gset string) t op :
  dom (r_states r) = D ->
  next_task_id (task_id <$> dag_tasks the_dag) chain_edges (gset_to_gmap success D) = Some t ->
  get_task the_dag t = Some op ->
  step' dr r = Some (run_task' dr op r).
Proof.
  intros HD Hnext Hget. unfold step. rewrite dag_edges_chain.
  rewrite (next_task_id_dom _ _ _ (gset_to_gmap success D))
    by (by rewrite dom_gset_to_gmap).
  by rewrite Hnext, Hget.
Qed.

(** One run of the DAG takes the five tasks in the order of the chain. *)
Lemma dag_run_chain dr w :
  dag_run X GE_TUTORIAL_DB_URL GE_TUTORIAL_PROJECT_PATH dr w =
    let r1 := run_task' dr (task_load_files_into_db X GE_TUTORIAL_DB_URL
                              GE_TUTORIAL_PROJECT_PATH) (start w) in
    let r2 := run_task' dr task_validate_source_data_load r1 in
    let r3 := run_task' dr (task_dbt GE_TUTORIAL_PROJECT_PATH) r2 in
    let r4 := run_task' dr (task_validate_analytical_output X) r3 in
    run_task' dr (task_publish GE_TUTORIAL_DB_URL) r4.
Proof.
  cbn zeta. unfold dag_run. cbn [length dag_tasks dag steps].
  erewrite step_by_dom;
    [|reflexivity|vm_compute; reflexivity|reflexivity].
  erewrite step_by_dom;
    [|rewrite dom_run_task; reflexivity|vm_compute; reflexivity|reflexivity].
  erewrite step_by_dom;
    [|rewrite !dom_run_task; reflexivity|vm_compute; reflexivity|reflexivity].
  erewrite step_by_dom;
    [|rewrite !dom_run_task; reflexivity|vm_compute; reflexivity|reflexivity].
  erewrite step_by_dom;
    [|rewrite !dom_run_task; reflexivity|vm_compute; reflexivity|reflexivity].
  reflexivity.
Qed.

Lemma dag_run_summary dr w :
  ∃ r1 r2 r3 r4,
    summary (dag_run X GE_TUTORIAL_DB_URL GE_TUTORIAL_PROJECT_PATH dr w) =
      chain_summary
        [succeeded X dr (task_load_files_into_db X GE_TUTORIAL_DB_URL
                           GE_TUTORIAL_PROJECT_PATH) (start w);
         succeeded X dr task_validate_source_data_load r1;
         succeeded X dr (task_dbt GE_TUTORIAL_PROJECT_PATH) r2;
         succeeded X dr (task_validate_analytical_output X) r3;
         succeeded X dr (task_publish GE_TUTORIAL_DB_URL) r4].
Proof.
  rewrite dag_run_chain. cbn zeta.
  set (r1 := run_task' dr (task_load_files_into_db X GE_TUTORIAL_DB_URL
                             GE_TUTORIAL_PROJECT_PATH) (start w)).
  set (r2 := run_task' dr task_validate_source_data_load r1).
  set (r3 := run_task' dr (task_dbt GE_TUTORIAL_PROJECT_PATH) r2).
  set (r4 := run_task' dr (task_validate_analytical_output X) r3).
  exists r1, r2, r3, r4.
  rewrite summary_run_task. unfold r4. rewrite summary_run_task.
  unfold r3. rewrite summary_run_task. unfold r2. rewrite summary_run_task.
  unfold r1. rewrite summary_run_task. reflexivity.
Qed.

End Chain.

(** The bookkeeping of the chain is one of six: the first [k] tasks succeed,
    the next one fails, the rest never runs. *)
Lemma chain_summary_outcome b1 b2 b3 b4 b5 :
  ∃ k, (k ≤ 5)%nat ∧
       (states_of (chain_summary [b1; b2; b3; b4; b5]).1,
        (chain_summary [b1; b2; b3; b4; b5]).2) = outcome k ∧
       ((4 ≤ k)%nat -> b4 = true).
Proof.
  destruct b1; [|exists 0%nat; split_and!; [lia|vm_compute; exact eq_refl|lia]].
  destruct b2; [|exists 1%nat; split_and!; [lia|vm_compute; exact eq_refl|lia]].
  destruct b3; [|exists 2%nat; split_and!; [lia|vm_compute; exact eq_refl|lia]].
  destruct b4; [|exists 3%nat; split_and!; [lia|vm_compute; exact eq_refl|lia]].
  destruct b5; [exists 5%nat|exists 4%nat];
    (split_and!; [lia|vm_compute; exact eq_refl|done]).
Qed.

Lemma dag_run_outcome X URL PATH dr w :
  ∃ k r3, (k ≤ 5)%nat ∧
    (states_of (r_states (dag_run X URL PATH dr w)), r_ran (dag_run X URL PATH dr w))
      = outcome k ∧
    ((4 ≤ k)%nat -> succeeded X dr (task_validate_analytical_output X) r3 = true).
Proof.
  destruct (dag_run_summary X URL PATH dr w) as (r1 & r2 & r3 & r4 & Hs).
  destruct (chain_summary_outcome
              (succeeded X dr (task_load_files_into_db X URL PATH) (start w))
              (succeeded X dr task_validate_source_data_load r1)
              (succeeded X dr (task_dbt PATH) r2)
              (succeeded X dr (task_validate_analytical_output X) r3)
              (succeeded X dr (task_publish URL) r4)) as (k & Hk & Ho & H4).
  exists k, r3. rewrite <- Hs in Ho. by split_and!.
Qed.

Ltac by_computation := apply (bool_decide_unpack _); vm_compute; exact I.

(** What the six outcomes have in common. *)
Lemma outcome_linear (st : gmap string TaskState) (ran : list string) k :
  (k ≤ 5)%nat ->
  (states_of st, ran) = outcome k ->
  (∃ n, ran = take n chain) ∧
  "task_load_files_into_db" ∈ ran ∧
  (∀ p t, (p, t) ∈ chain_edges -> t ∈ ran -> st !! p = Some success ∧ p ∈ ran) ∧
  (∀ p t, (p, t) ∈ chain_edges -> st !! p = Some success -> t ∈ ran) ∧
  (∀ (i j : nat) p t, chain !! i = Some p -> chain !! j = Some t -> (i < j)%nat ->
     st !! p = Some failed -> (t ∉ ran) ∧ st !! t = Some upstream_failed) ∧
  (∀ t, t ∈ ran -> st !! t = Some success ∨ st !! t = Some failed).
Proof.
  intros Hk Ho.
  split; [exists (S k); unfold outcome in Ho; by injection Ho|].
  unfold outcome, states_of, chain in Ho.
  destruct k as [|[|[|[|[|[|k]]]]]]; [..|lia];
    injection Ho as H1 H2 H3 H4 H5 ->;
    (split; [by_computation|]);
    (split; [intros p t Hin; unfold chain_edges in Hin;
             repeat (apply elem_of_cons in Hin as [Hin|Hin];
                     [injection Hin as -> ->;
                      rewrite ?H1, ?H2, ?H3, ?H4, ?H5; by_computation|]);
             by apply elem_of_nil in Hin|]);
    (split; [intros p t Hin; unfold chain_edges in Hin;
             repeat (apply elem_of_cons in Hin as [Hin|Hin];
                     [injection Hin as -> ->;
                      rewrite ?H1, ?H2, ?H3, ?H4, ?H5; by_computation|]);
             by apply elem_of_nil in Hin|]);
    (split; [intros i j p t Hi Hj Hlt;
             destruct i as [|[|[|[|[|i]]]]]; try discriminate Hi; injection Hi as <-;
             (destruct j as [|[|[|[|[|j]]]]]; try discriminate Hj; try lia;
              injection Hj as <-);
             rewrite ?H1, ?H2, ?H3, ?H4, ?H5; by_computation|]);
    intros t Hin;
    repeat (apply elem_of_cons in Hin as [->|Hin];
            [rewrite ?H1, ?H2, ?H3, ?H4, ?H5; by_computation|]);
    by apply elem_of_nil in Hin.
Qed.

Lemma run_task_state X URL PATH dr op r :
  (r_states (run_task X URL PATH dr op r) !! task_id op = Some success ->
   succeeded X dr op r = true) ∧
  (r_states (run_task X URL PATH dr op r) !! task_id op = Some failed ->
   succeeded X dr op r = false).
Proof.
  unfold run_task, succeeded.
  destruct (all_success _ _);
    [destruct (execute_operator _ _ _ _) as [[v|e] w']|];
    cbn [r_states fst]; rewrite lookup_insert_eq; split; congruence.
Qed.

(** C5.  The dependency line makes the chain Loader, Source-validation gate,
    Transformer, Output-validation gate, Publisher.  In every run the tasks
    executed are a prefix of the chain, in its order, starting with the
    Loader; a task is executed only when its predecessor was executed and
    succeeded, and is executed whenever its predecessor succeeded; once a
    task has failed, no later task of the chain is executed (each is marked
    upstream_failed).  A task is recorded as succeeded only if its execution
    returned, as failed only if it raised. *)
Theorem dag_run_linear X URL PATH dr w :
  let r := dag_run X URL PATH dr w in
  dag_edges (dag X URL PATH) = zip chain (tail chain) ∧
  (∃ n, r_ran r = take n chain) ∧
  "task_load_files_into_db" ∈ r_ran r ∧
  (∀ p t, (p, t) ∈ dag_edges (dag X URL PATH) -> t ∈ r_ran r ->
     r_states r !! p = Some success ∧ p ∈ r_ran r) ∧
  (∀ p t, (p, t) ∈ dag_edges (dag X URL PATH) -> r_states r !! p = Some success ->
     t ∈ r_ran r) ∧
  (∀ (i j : nat) p t, chain !! i = Some p -> chain !! j = Some t -> (i < j)%nat ->
     r_states r !! p = Some failed ->
     (t ∉ r_ran r) ∧ r_states r !! t = Some upstream_failed) ∧
  (∀ t, t ∈ r_ran r -> r_states r !! t = Some success ∨ r_states r !! t = Some failed) ∧
  (∀ op r0,
     (r_states (run_task X URL PATH dr op r0) !! task_id op = Some success ->
      succeeded X dr op r0 = true) ∧
     (r_states (run_task X URL PATH dr op r0) !! task_id op = Some failed ->
      succeeded X dr op r0 = false)).
Proof.
  cbn zeta.
  split; [reflexivity|].
  rewrite dag_edges_chain.
  destruct (dag_run_outcome X URL PATH dr w) as (k & r3 & Hk & Ho & _).
  destruct (outcome_linear _ _ k Hk Ho) as (H1 & H2 & H3 & H4 & H5 & H6).
  split_and!; try done.
  intros op r0. apply run_task_state.
Qed.

(** A run of the sample installation with an engine that reports failure. *)
Lemma dag_run_linear_witness :
  ∃ n, r_ran (dag_run (sample_externals false) (Some sample_url) (Some "/project")
                sample_dag_run sample_world) = take n chain.
Proof.
  exact (proj1 (proj2 (dag_run_linear (sample_externals false) (Some sample_url)
                         (Some "/project") sample_dag_run sample_world))).
Defined.

(** ** The gate: its run identifier and its decision *)

(** C4.  When the gate reaches the validation operator (the data context and
    the batch are there, the scheduler has given the run), it calls it once,
    with the identifier made of the prefix airflow, the scheduler's run id
    and the string of the run's start date, joined by colons. *)
Theorem validate_analytical_output_run_id X ds kwargs w ctx batch dr :
  ge_DataContext X (w_fs w) = Ok ctx ->
  ge_get_batch X ctx (w_dbs w) analytical_batch_kwargs "count_providers_by_state.critical"
    = Ok batch ->
  kwargs !! "dag_run" = Some (PyDagRun dr) ->
  events (validate_analytical_output X ds kwargs) w =
    [EvDataContext;
     EvGetBatch analytical_batch_kwargs "count_providers_by_state.critical";
     EvUtcNow;
     EvRunValidationOperator "action_list_operator" [batch]
       ("airflow" +:+ ":" +:+ run_id dr +:+ ":" +:+ str_of_datetime (start_date dr))] ∧
  run_ids (events (validate_analytical_output X ds kwargs) w) =
    ["airflow" +:+ ":" +:+ run_id dr +:+ ":" +:+ str_of_datetime (start_date dr)].
Proof.
  intros Hc Hb Hk.
  assert (Hev : events (validate_analytical_output X ds kwargs) w =
    [EvDataContext;
     EvGetBatch analytical_batch_kwargs "count_providers_by_state.critical";
     EvUtcNow;
     EvRunValidationOperator "action_list_operator" [batch] (airflow_run_id dr)]).
  { apply events_app. rewrite (validate_reaches X ds kwargs w ctx batch dr Hc Hb Hk). cbn.
    destruct (ge_run_validation_operator _ _ _ _ _ _) as [results|e]; [|done].
    destruct (results !! "success") as [s|]; [|done]. by destruct (truthy s). }
  rewrite Hev. split; reflexivity.
Qed.

(** The identifier the gate passes for the sample run. *)
Lemma validate_analytical_output_run_id_witness :
  run_ids (events (validate_analytical_output (sample_externals true) PyNone
                     (make_context sample_dag_run [])) sample_world) =
    ["airflow:manual__2020-03-14T15:09:26+00:00:2020-03-14 15:09:26.535897+00:00"].
Proof.
  refine (proj2 (validate_analytical_output_run_id (sample_externals true) PyNone
                   (make_context sample_dag_run []) sample_world
                   {| context_root_directory := "/project/great_expectations" |}
                   {| batch_kwargs := analytical_batch_kwargs;
                      batch_suite := "count_providers_by_state.critical" |}
                   sample_dag_run _ _ _)); reflexivity.
Defined.

(** The clock is read and its value dropped: at another time the gate does
    the same, and leaves the same trace. *)
Lemma validate_at_time X ds kwargs w now :
  validate_analytical_output X ds kwargs (at_time now w) =
    ((validate_analytical_output X ds kwargs w).1,
     at_time now (validate_analytical_output X ds kwargs w).2).
Proof.
  unfold validate_analytical_output, DataContext_new, get_batch, utcnow,
    run_validation_operator, getitem, get_run_id, get_start_date, bind, emit, at_time.
  cbn.
  destruct (ge_DataContext X (w_fs w)) as [ctx|e]; [|done]. cbn.
  destruct (ge_get_batch X ctx (w_dbs w) _ _) as [batch|e]; [|done]. cbn.
  destruct (kwargs !! "dag_run") as [[| | | |dr|]|]; try done. cbn.
  destruct (ge_run_validation_operator _ _ _ _ _ _) as [results|e]; [|done]. cbn.
  destruct (results !! "success") as [s|]; [|done]. cbn.
  by destruct (truthy s).
Qed.

(** C8.  Two invocations of the gate whose runs have the same run id and the
    same start date pass the same identifier, whatever the worlds they run
    in (their clocks included); and moving the clock of a world changes
    neither the identifiers passed nor the outcome, although the clock is
    read. *)
Theorem validate_analytical_output_clock_free X1 X2 ds1 ds2 kwargs1 kwargs2 w1 w2
    dr1 dr2 r1 r2 :
  kwargs1 !! "dag_run" = Some (PyDagRun dr1) ->
  kwargs2 !! "dag_run" = Some (PyDagRun dr2) ->
  run_id dr1 = run_id dr2 ->
  start_date dr1 = start_date dr2 ->
  r1 ∈ run_ids (events (validate_analytical_output X1 ds1 kwargs1) w1) ->
  r2 ∈ run_ids (events (validate_analytical_output X2 ds2 kwargs2) w2) ->
  r1 = r2 ∧
  (∀ now,
     run_ids (events (validate_analytical_output X1 ds1 kwargs1) (at_time now w1))
       = run_ids (events (validate_analytical_output X1 ds1 kwargs1) w1) ∧
     (validate_analytical_output X1 ds1 kwargs1 (at_time now w1)).1
       = (validate_analytical_output X1 ds1 kwargs1 w1).1).
Proof.
  intros Hk1 Hk2 Hid Hsd Hr1 Hr2. split.
  - destruct (validate_run_ids X1 ds1 kwargs1 w1) as [H1|(d1 & Hd1 & H1)];
      rewrite H1 in Hr1; [by apply elem_of_nil in Hr1|].
    destruct (validate_run_ids X2 ds2 kwargs2 w2) as [H2|(d2 & Hd2 & H2)];
      rewrite H2 in Hr2; [by apply elem_of_nil in Hr2|].
    apply list_elem_of_singleton in Hr1, Hr2. subst r1 r2.
    rewrite Hk1 in Hd1. rewrite Hk2 in Hd2.
    injection Hd1 as <-. injection Hd2 as <-.
    unfold airflow_run_id. by rewrite Hid, Hsd.
  - intros now. unfold events. rewrite validate_at_time. done.
Qed.

(** Two invocations for the sample run, in different worlds and at
    different times. *)
Lemma validate_analytical_output_clock_free_witness :
  let later := at_time {| dt_year := 2021; dt_month := 1; dt_day := 1; dt_hour := 0;
                          dt_minute := 0; dt_second := 0; dt_microsecond := 0;
                          dt_utcoffset := None |} sample_built in
  let r := "airflow:manual__2020-03-14T15:09:26+00:00:2020-03-14 15:09:26.535897+00:00" in
  r ∈ run_ids (events (validate_analytical_output (sample_externals true) PyNone
                         (make_context sample_dag_run [])) sample_world) ∧
  r ∈ run_ids (events (validate_analytical_output (sample_externals false) PyNone
                         (make_context sample_dag_run [])) later) ∧
  r = r.
Proof.
  cbn zeta.
  assert (H1 : "airflow:manual__2020-03-14T15:09:26+00:00:2020-03-14 15:09:26.535897+00:00"
               ∈ run_ids (events (validate_analytical_output (sample_externals true) PyNone
                                    (make_context sample_dag_run [])) sample_world))
    by (apply (bool_decide_unpack _); vm_compute; exact I).
  assert (H2 : "airflow:manual__2020-03-14T15:09:26+00:00:2020-03-14 15:09:26.535897+00:00"
               ∈ run_ids (events (validate_analytical_output (sample_externals false) PyNone
                                    (make_context sample_dag_run []))
                            (at_time {| dt_year := 2021; dt_month := 1; dt_day := 1;
                                        dt_hour := 0; dt_minute := 0; dt_second := 0;
                                        dt_microsecond := 0; dt_utcoffset := None |}
                               sample_built)))
    by (apply (bool_decide_unpack _); vm_compute; exact I).
  split; [exact H1|]. split; [exact H2|].
  exact (proj1 (validate_analytical_output_clock_free
                  (sample_externals true) (sample_externals false) PyNone PyNone
                  (make_context sample_dag_run []) (make_context sample_dag_run [])
                  sample_world _ sample_dag_run sample_dag_run _ _
                  eq_refl eq_refl eq_refl eq_refl H1 H2)).
Defined.

(** The gate returns only on an answer whose success flag is true. *)
Lemma validate_Ok_inv X ds kwargs w v w' :
  validate_analytical_output X ds kwargs w = (Ok v, w') ->
  ∃ ctx batch rid results s,
    ge_run_validation_operator X ctx (w_dbs w) "action_list_operator" [batch] rid
      = Ok results ∧
    results !! "success" = Some s ∧ truthy s = true.
Proof.
  unfold validate_analytical_output, DataContext_new, get_batch, utcnow,
    run_validation_operator, getitem, get_run_id, get_start_date, bind, emit.
  cbn.
  destruct (ge_DataContext X (w_fs w)) as [ctx|e]; [|done]. cbn.
  destruct (ge_get_batch X ctx (w_dbs w) _ _) as [batch|e]; [|done]. cbn.
  destruct (kwargs !! "dag_run") as [[| | | |dr|]|]; try done. cbn.
  destruct (ge_run_validation_operator _ _ _ _ _ _) as [results|e] eqn:Hres; [|done]. cbn.
  destruct (results !! "success") as [s|] eqn:Hs; [|done]. cbn.
  destruct (truthy s) eqn:Ht; [|done].
  intros _. by eexists ctx, batch, _, results, s.
Qed.

Lemma make_context_ds dr xcom :
  make_context dr xcom !! "ds" = Some (PyStr (strftime (execution_date dr) "%Y-%m-%d")).
Proof. unfold make_context. by simplify_map_eq. Qed.

Lemma make_context_dag_run dr xcom :
  delete "ds" (make_context dr xcom) !! "dag_run" = Some (PyDagRun dr).
Proof. unfold make_context. by simplify_map_eq. Qed.

Lemma outcome_publish (st : gmap string TaskState) (ran : list string) k :
  (k ≤ 5)%nat ->
  (states_of st, ran) = outcome k ->
  ((4 ≤ k)%nat ∧ "task_publish" ∈ ran) ∨
  ((k < 4)%nat ∧ ("task_publish" ∉ ran) ∧ st !! "task_publish" = Some upstream_failed).
Proof.
  intros Hk Ho. unfold outcome, states_of, chain in Ho.
  destruct k as [|[|[|[|[|[|k]]]]]]; [..|lia];
    injection Ho as H1 H2 H3 H4 H5 ->;
    first [left; split; [lia|by_computation]
          |right; split; [lia|]; split; [by_computation|exact H5]].
Qed.

(** C1.  On an answer of the validation operator whose success flag is
    false, the gate raises an AirflowException whose message contains the
    name of the suite; on one whose flag is true it returns.  With an engine
    that gives such a failing answer, no run of the DAG executes the
    Publisher: that task ends as upstream_failed. *)
Theorem validate_analytical_output_gates X URL PATH (results : gmap string pyobj)
    (flag : bool) :
  results !! "success" = Some (PyBool flag) ->
  (∀ ds kwargs w ctx batch dr,
     ge_DataContext X (w_fs w) = Ok ctx ->
     ge_get_batch X ctx (w_dbs w) analytical_batch_kwargs
       "count_providers_by_state.critical" = Ok batch ->
     kwargs !! "dag_run" = Some (PyDagRun dr) ->
     ge_run_validation_operator X ctx (w_dbs w) "action_list_operator" [batch]
       (airflow_run_id dr) = Ok results ->
     if flag then (validate_analytical_output X ds kwargs w).1 = Ok PyNone
     else ∃ msg,
       (validate_analytical_output X ds kwargs w).1 = Raise (AirflowException msg) ∧
       contains "count_providers_by_state.critical" msg = true) ∧
  (flag = false ->
   (∀ ctx dbs name assets rid,
      ge_run_validation_operator X ctx dbs name assets rid = Ok results) ->
   ∀ dr w,
     ("task_publish" ∉ r_ran (dag_run X URL PATH dr w)) ∧
     r_states (dag_run X URL PATH dr w) !! "task_publish" = Some upstream_failed).
Proof.
  intros Hflag. split.
  - intros ds kwargs w ctx batch dr Hc Hb Hk Hres.
    rewrite (validate_reaches X ds kwargs w ctx batch dr Hc Hb Hk). cbn zeta.
    rewrite Hres, Hflag. cbn [truthy]. destruct flag; [done|].
    eexists. split; [reflexivity|]. vm_compute. reflexivity.
  - intros -> Heng dr w.
    destruct (dag_run_outcome X URL PATH dr w) as (k & r3 & Hk & Ho & Hgate).
    destruct (outcome_publish _ _ k Hk Ho) as [[H4 _]|(_ & Hran & Hst)]; [|done].
    exfalso. specialize (Hgate H4). unfold succeeded in Hgate.
    destruct (execute_operator X (task_validate_analytical_output X)
                (make_context dr (r_xcom r3)) (r_world r3)) as [[v|e] w'] eqn:Hex;
      [|discriminate Hgate].
    unfold task_validate_analytical_output, execute_operator, call in Hex.
    rewrite make_context_ds in Hex.
    apply validate_Ok_inv in Hex as (ctx & batch & rid & res & s & Hres & Hs & Ht).
    rewrite Heng in Hres. injection Hres as <-.
    rewrite Hflag in Hs. injection Hs as <-. discriminate Ht.
Qed.

(** The sample installation with an engine that reports failure. *)
Lemma validate_analytical_output_gates_witness :
  (∃ msg,
     (validate_analytical_output (sample_externals false) PyNone
        (make_context sample_dag_run []) sample_built).1 = Raise (AirflowException msg) ∧
     contains "count_providers_by_state.critical" msg = true) ∧
  ("task_publish" ∉ r_ran (dag_run (sample_externals false) (Some sample_url)
                             (Some "/project") sample_dag_run sample_world)).
Proof.
  assert (Hflag : (<["success" := PyBool false]> ∅ : gmap string pyobj) !! "success"
                  = Some (PyBool false)) by reflexivity.
  destruct (validate_analytical_output_gates (sample_externals false) (Some sample_url)
              (Some "/project") (<["success" := PyBool false]> ∅) false Hflag)
    as [Hgate Hrun].
  split.
  - refine (Hgate PyNone (make_context sample_dag_run []) sample_built
              {| context_root_directory := "/project/great_expectations" |}
              {| batch_kwargs := analytical_batch_kwargs;
                 batch_suite := "count_providers_by_state.critical" |}
              sample_dag_run _ _ _ _); reflexivity.
  - exact (proj1 (Hrun eq_refl (fun _ _ _ _ _ => eq_refl) sample_dag_run sample_world)).
Defined.

(** ** The loader's return value *)

Lemma load_Ok_inv X URL PATH ds kwargs w v w' :
  load_files_into_db X URL PATH ds kwargs w = (Ok v, w') ->
  v = PyStr "Loaded files into the database".
Proof.
  intros Hrun. destruct URL as [url|]; [|discriminate Hrun].
  destruct (w_dbs w !! url) as [db|] eqn:Hdb.
  - rewrite (load_eq X PATH url ds kwargs w db Hdb) in Hrun. unfold load_outcome in Hrun.
    destruct (os_path_join PATH "data/npi_small.csv") as [p1|e1];
      [destruct (csv_frame X (w_fs w) p1) as [df1|e1];
         [destruct (to_sql_on X (lower_columns X df1) "npi_small" _).2 as [[]|e1];
            [destruct (os_path_join PATH "data/state_abbreviations.csv") as [p2|e2];
               [destruct (csv_frame X (w_fs w) p2) as [df2|e2];
                  [destruct (to_sql_on X df2 "state_abbreviations" _).2 as [[]|e2]|]|]|]|]|];
      try discriminate Hrun.
    by injection Hrun as <- _.
  - unfold load_files_into_db, create_engine in Hrun.
    rewrite (bind_Ok _ _ w url w) in Hrun by done.
    erewrite bind_Raise in Hrun by (by apply connect_Raise). discriminate Hrun.
Qed.

(** The gate looks at its keyword arguments for the run only. *)
Lemma validate_kwargs X ds1 ds2 (kwargs1 kwargs2 : gmap string pyobj) w :
  kwargs1 !! "dag_run" = kwargs2 !! "dag_run" ->
  validate_analytical_output X ds1 kwargs1 w = validate_analytical_output X ds2 kwargs2 w.
Proof. intros H. unfold validate_analytical_output, getitem. by rewrite H. Qed.

Lemma execute_operator_xcom X URL PATH op dr xcom1 xcom2 w :
  op ∈ dag_tasks (dag X URL PATH) ->
  execute_operator X op (make_context dr xcom1) w
  = execute_operator X op (make_context dr xcom2) w.
Proof.
  intros Hop. cbn [dag dag_tasks] in Hop.
  repeat (apply elem_of_cons in Hop as [-> | Hop]);
    [unfold task_load_files_into_db, execute_operator, call;
     by rewrite !make_context_ds
    |reflexivity
    |reflexivity
    |reflexivity
    |unfold task_validate_analytical_output, execute_operator, call;
     rewrite !make_context_ds; apply validate_kwargs;
     by rewrite !make_context_dag_run
    |by apply elem_of_nil in Hop].
Qed.

Lemma run_task_xcom X URL PATH dr op r :
  ∃ l, r_xcom (run_task X URL PATH dr op r) = r_xcom r ++ l.
Proof.
  unfold run_task.
  destruct (all_success _ _);
    [destruct (execute_operator _ _ _ _) as [[v|e] w']|]; cbn [r_xcom];
    try (exists []; by rewrite app_nil_r).
  destruct v; first [by eexists | exists []; by rewrite app_nil_r].
Qed.

Lemma run_task_other X URL PATH dr op r t :
  t ≠ task_id op ->
  r_states (run_task X URL PATH dr op r) !! t = r_states r !! t.
Proof.
  intros Hne. unfold run_task.
  destruct (all_success _ _);
    [destruct (execute_operator _ _ _ _) as [[v|e] w']|];
    cbn [r_states]; by rewrite lookup_insert_ne.
Qed.

Lemma run_task_load X URL PATH dr w v w' :
  execute_operator X (task_load_files_into_db X URL PATH) (make_context dr []) w
    = (Ok v, w') ->
  r_xcom (run_task X URL PATH dr (task_load_files_into_db X URL PATH) (start w))
  = [("task_load_files_into_db", "return_value", PyStr "Loaded files into the database")].
Proof.
  intros Hex. unfold run_task.
  replace (all_success _ _) with true by (vm_compute; reflexivity).
  cbn [start r_xcom r_world]. rewrite Hex. cbn [r_xcom].
  unfold task_load_files_into_db, execute_operator, call in Hex.
  rewrite make_context_ds in Hex. apply load_Ok_inv in Hex. by subst v.
Qed.

(** C7.  Whenever the loader returns, it returns the marker string.  In a
    run in which the loader's task succeeded, the marker is what the
    scheduler holds as that task's return value.  No task of the DAG looks
    at the values the scheduler holds: executed with other values in their
    place, each does the same. *)
Theorem load_files_into_db_marker X URL PATH :
  (∀ ds kwargs w v w',
     load_files_into_db X URL PATH ds kwargs w = (Ok v, w') ->
     v = PyStr "Loaded files into the database") ∧
  (∀ dr w,
     r_states (dag_run X URL PATH dr w) !! "task_load_files_into_db" = Some success ->
     ∃ l, r_xcom (dag_run X URL PATH dr w) =
            ("task_load_files_into_db", "return_value",
             PyStr "Loaded files into the database") :: l) ∧
  (∀ op dr xcom1 xcom2 w,
     op ∈ dag_tasks (dag X URL PATH) ->
     execute_operator X op (make_context dr xcom1) w
     = execute_operator X op (make_context dr xcom2) w).
Proof.
  split; [intros ds kwargs w v w'; apply load_Ok_inv|].
  split; [|intros op dr xcom1 xcom2 w; apply execute_operator_xcom].
  intros dr w. rewrite dag_run_chain. cbn zeta.
  set (r1 := run_task X URL PATH dr (task_load_files_into_db X URL PATH) (start w)).
  rewrite !run_task_other by done.
  intros Hst. apply run_task_state in Hst. unfold succeeded in Hst.
  cbn [start r_xcom r_world] in Hst.
  destruct (execute_operator X (task_load_files_into_db X URL PATH)
              (make_context dr []) w) as [[v|e] w'] eqn:Hex; [|discriminate Hst].
  pose proof (run_task_load X URL PATH dr w v w' Hex) as H1. fold r1 in H1.
  set (r2 := run_task X URL PATH dr task_validate_source_data_load r1).
  set (r3 := run_task X URL PATH dr (task_dbt PATH) r2).
  set (r4 := run_task X URL PATH dr (task_validate_analytical_output X) r3).
  destruct (run_task_xcom X URL PATH dr task_validate_source_data_load r1) as [l2 H2].
  destruct (run_task_xcom X URL PATH dr (task_dbt PATH) r2) as [l3 H3].
  destruct (run_task_xcom X URL PATH dr (task_validate_analytical_output X) r3) as [l4 H4].
  destruct (run_task_xcom X URL PATH dr (task_publish URL) r4) as [l5 H5].
  rewrite H5. fold r4 in H4. rewrite H4. fold r3 in H3. rewrite H3.
  fold r2 in H2. rewrite H2, H1. cbn. by eexists.
Qed.

(** The loader on the sample installation. *)
Lemma load_files_into_db_marker_witness :
  (load_files_into_db (sample_externals true) (Some sample_url) (Some "/project")
     PyNone ∅ sample_world).1 = Ok (PyStr "Loaded files into the database").
Proof.
  destruct (load_files_into_db (sample_externals true) (Some sample_url) (Some "/project")
              PyNone ∅ sample_world) as [[v|e] w'] eqn:Hrun.
  - cbn [fst]. f_equal.
    exact (proj1 (load_files_into_db_marker (sample_externals true) (Some sample_url)
                    (Some "/project")) PyNone ∅ sample_world v w' Hrun).
  - exfalso. apply (f_equal fst) in Hrun. vm_compute in Hrun. discriminate Hrun.
Defined.

(** * Further properties *)

(** ** The publisher: what it takes to succeed, and what a failure leaves *)

Lemma publish_no_server url w :
  w_dbs w !! url = None ->
  publish_to_prod (Some url) w =
    (Raise (OperationalError ("could not connect to server: " +:+ url)),
     {| w_fs := w_fs w; w_dbs := w_dbs w; w_now := w_now w;
        w_trace := w_trace w ++ [EvConnect url] |}).
Proof.
  intros Hdb. unfold publish_to_prod, create_engine.
  rewrite (bind_Ok _ _ w url w) by done.
  by erewrite bind_Raise by (by apply connect_Raise).
Qed.

Lemma run_drop_free name (db : Database) :
  (∀ old, db !! name = Some old -> t_dependents old = []) ->
  run_stmt (DropTableIfExists name false) db = Ok (delete name db).
Proof.
  intros Hdeps. cbn. destruct (db !! name) as [old|] eqn:Hold.
  - by rewrite (Hdeps old eq_refl).
  - by rewrite delete_id.
Qed.

(** The publisher on a database without the analytical table. *)
Lemma publish_source_missing_eq url w (db : Database) :
  w_dbs w !! url = Some db ->
  db !! "count_providers_by_state" = None ->
  (∀ old, db !! "prod_count_providers_by_state" = Some old -> t_dependents old = []) ->
  publish_to_prod (Some url) w =
    (Raise (ProgrammingError "relation count_providers_by_state does not exist"),
     {| w_fs := w_fs w;
        w_dbs := <[url := delete "prod_count_providers_by_state" db]> (w_dbs w);
        w_now := w_now w;
        w_trace := w_trace w ++
          [EvConnect url;
           EvExecute url "drop table if exists prod_count_providers_by_state";
           EvExecute url
             "alter table count_providers_by_state rename to prod_count_providers_by_state"]
     |}).
Proof.
  intros Hdb Hsrc Hdeps.
  rewrite (publish_eq url w db Hdb). cbn zeta. rewrite (run_drop_free _ db Hdeps).
  cbn [run_stmt]. rewrite lookup_delete_ne by done. by rewrite Hsrc.
Qed.

(** The publisher on a database with the analytical table and a production
    name that can be freed. *)
Lemma publish_Ok_eq url w (db : Database) t :
  w_dbs w !! url = Some db ->
  db !! "count_providers_by_state" = Some t ->
  (∀ old, db !! "prod_count_providers_by_state" = Some old -> t_dependents old = []) ->
  publish_to_prod (Some url) w =
    (Ok PyNone,
     {| w_fs := w_fs w;
        w_dbs := <[url := <["prod_count_providers_by_state" := t]>
                             (delete "count_providers_by_state"
                                (delete "prod_count_providers_by_state" db))]> (w_dbs w);
        w_now := w_now w;
        w_trace := w_trace w ++
          [EvConnect url;
           EvExecute url "drop table if exists prod_count_providers_by_state";
           EvExecute url
             "alter table count_providers_by_state rename to prod_count_providers_by_state"]
     |}).
Proof.
  intros Hdb Hsrc Hdeps.
  rewrite (publish_eq url w db Hdb). cbn zeta. rewrite (run_drop_free _ db Hdeps).
  cbn [run_stmt]. rewrite lookup_delete_ne by done. rewrite Hsrc.
  rewrite lookup_delete_eq. by rewrite bool_decide_eq_false_2 by (by intros [? ?]).
Qed.

(** X1.  When the table [count_providers_by_state] is missing and nothing
    depends on the production table, [publish_to_prod] drops the production
    table, then fails on the rename: the error of the rename is raised and
    the database is left without a production table. *)
Theorem publish_to_prod_source_missing url w (db : Database) :
  w_dbs w !! url = Some db ->
  db !! "count_providers_by_state" = None ->
  (∀ old, db !! "prod_count_providers_by_state" = Some old -> t_dependents old = []) ->
  (publish_to_prod (Some url) w).1
    = Raise (ProgrammingError "relation count_providers_by_state does not exist") ∧
  w_dbs (publish_to_prod (Some url) w).2 !! url
    = Some (delete "prod_count_providers_by_state" db) ∧
  events (publish_to_prod (Some url)) w =
    [EvConnect url;
     EvExecute url "drop table if exists prod_count_providers_by_state";
     EvExecute url
       "alter table count_providers_by_state rename to prod_count_providers_by_state"].
Proof.
  intros Hdb Hsrc Hdeps.
  rewrite (publish_source_missing_eq url w db Hdb Hsrc Hdeps). cbn [fst snd w_dbs].
  split; [done|]. split; [apply lookup_insert_eq|].
  apply events_app. by rewrite (publish_source_missing_eq url w db Hdb Hsrc Hdeps).
Qed.

(** On the sample database, where [dbt] has built nothing yet. *)
Lemma publish_to_prod_source_missing_witness :
  is_Some (sample_db !! "prod_count_providers_by_state") ∧
  (publish_to_prod (Some sample_url) sample_world).1
    = Raise (ProgrammingError "relation count_providers_by_state does not exist") ∧
  w_dbs (publish_to_prod (Some sample_url) sample_world).2 !! sample_url
    = Some (delete "prod_count_providers_by_state" sample_db).
Proof.
  split; [by eexists|].
  destruct (publish_to_prod_source_missing sample_url sample_world sample_db)
    as (Hr & Hdb & _); [reflexivity|reflexivity| |exact (conj Hr Hdb)].
  intros old Hold. vm_compute in Hold. by injection Hold as <-.
Defined.

(** X2.  The publisher cannot be run twice: after a run that succeeded (the
    published table having no dependent object), a second run drops the table
    just published and then fails on the rename, so that no production table
    is left. *)
Theorem publish_to_prod_twice url w (db : Database) t :
  w_dbs w !! url = Some db ->
  db !! "count_providers_by_state" = Some t ->
  t_dependents t = [] ->
  (∀ old, db !! "prod_count_providers_by_state" = Some old -> t_dependents old = []) ->
  let once := publish_to_prod (Some url) w in
  let twice := publish_to_prod (Some url) once.2 in
  once.1 = Ok PyNone ∧
  w_dbs once.2 !! url ≫= (.!! "prod_count_providers_by_state") = Some t ∧
  twice.1 = Raise (ProgrammingError "relation count_providers_by_state does not exist") ∧
  w_dbs twice.2 !! url ≫= (.!! "prod_count_providers_by_state") = None ∧
  w_dbs twice.2 !! url ≫= (.!! "count_providers_by_state") = None.
Proof.
  intros Hdb Hsrc Ht Hdeps. cbn zeta.
  rewrite (publish_Ok_eq url w db t Hdb Hsrc Hdeps). cbn [fst snd].
  set (db1 := <["prod_count_providers_by_state" := t]>
                (delete "count_providers_by_state"
                   (delete "prod_count_providers_by_state" db))).
  assert (H1 : db1 !! "count_providers_by_state" = None).
  { unfold db1. rewrite lookup_insert_ne by done. apply lookup_delete_eq. }
  assert (H2 : ∀ old, db1 !! "prod_count_providers_by_state" = Some old ->
                      t_dependents old = []).
  { intros old. unfold db1. rewrite lookup_insert_eq. by intros [= <-]. }
  erewrite publish_source_missing_eq; [|cbn; apply lookup_insert_eq|exact H1|exact H2].
  cbn [fst snd w_dbs]. rewrite !lookup_insert_eq. cbn.
  split_and!; try done.
  - unfold db1. apply lookup_insert_eq.
  - apply lookup_delete_eq.
  - by rewrite lookup_delete_ne.
Qed.

(** On the sample database once [dbt] has built the analytical table. *)
Lemma publish_to_prod_twice_witness :
  (publish_to_prod (Some sample_url) sample_built).1 = Ok PyNone ∧
  (publish_to_prod (Some sample_url)
     (publish_to_prod (Some sample_url) sample_built).2).1
    = Raise (ProgrammingError "relation count_providers_by_state does not exist") ∧
  w_dbs (publish_to_prod (Some sample_url)
           (publish_to_prod (Some sample_url) sample_built).2).2 !! sample_url
    ≫= (.!! "prod_count_providers_by_state") = None.
Proof.
  destruct (publish_to_prod_twice sample_url sample_built
              (<["count_providers_by_state" := sample_counts]> sample_db) sample_counts)
    as (H1 & _ & H2 & H3 & _); [reflexivity|reflexivity|reflexivity| |].
  - intros old Hold. vm_compute in Hold. by injection Hold as <-.
  - exact (conj H1 (conj H2 H3)).
Defined.

Lemma publish_Ok_inv URL w v :
  (publish_to_prod URL w).1 = Ok v ->
  ∃ url (db : Database) t,
    URL = Some url ∧ w_dbs w !! url = Some db ∧
    db !! "count_providers_by_state" = Some t ∧
    (∀ old, db !! "prod_count_providers_by_state" = Some old -> t_dependents old = []).
Proof.
  intros Hrun. destruct URL as [url|]; [|discriminate Hrun].
  destruct (w_dbs w !! url) as [db|] eqn:Hdb;
    [|rewrite (publish_no_server url w Hdb) in Hrun; discriminate Hrun].
  assert (Hdeps : ∀ old, db !! "prod_count_providers_by_state" = Some old ->
                         t_dependents old = []).
  { intros old Hold. destruct (t_dependents old) as [|d ds] eqn:Hd; [done|].
    rewrite (publish_eq url w db Hdb) in Hrun. cbn in Hrun.
    rewrite Hold, Hd in Hrun. discriminate Hrun. }
  destruct (db !! "count_providers_by_state") as [t|] eqn:Hsrc.
  - by exists url, db, t.
  - rewrite (publish_source_missing_eq url w db Hdb Hsrc Hdeps) in Hrun.
    discriminate Hrun.
Qed.

(** X3.  [publish_to_prod] returns exactly when the URL is set, a server
    answers there, the table [count_providers_by_state] exists and no object
    depends on a production table already there. *)
Theorem publish_to_prod_returns_iff URL w :
  (publish_to_prod URL w).1 = Ok PyNone ↔
  ∃ url (db : Database) t,
    URL = Some url ∧ w_dbs w !! url = Some db ∧
    db !! "count_providers_by_state" = Some t ∧
    (∀ old, db !! "prod_count_providers_by_state" = Some old -> t_dependents old = []).
Proof.
  split; [apply publish_Ok_inv|].
  intros (url & db & t & -> & Hdb & Hsrc & Hdeps).
  by rewrite (publish_Ok_eq url w db t Hdb Hsrc Hdeps).
Qed.

(** ** The loader without a project path *)

(** X7.  With the project path unset, the loader still drops both tables,
    then raises TypeError when it joins the path of the first file: nothing
    is read and nothing is written. *)
Theorem load_files_into_db_path_unset X url ds kwargs w (db : Database) :
  w_dbs w !! url = Some db ->
  (∃ msg, (load_files_into_db X (Some url) None ds kwargs w).1 = Raise (TypeError msg)) ∧
  events (load_files_into_db X (Some url) None ds kwargs) w =
    [EvConnect url;
     EvExecute url "drop table if exists npi_small cascade ";
     EvExecute url "drop table if exists state_abbreviations cascade "] ∧
  w_dbs (load_files_into_db X (Some url) None ds kwargs w).2 !! url
    = Some (delete "state_abbreviations" (delete "npi_small" db)).
Proof.
  intros Hdb.
  pose proof (load_eq X None url ds kwargs w db Hdb) as Heq.
  unfold load_outcome in Heq. cbn [os_path_join] in Heq.
  split_and!.
  - rewrite Heq. by eexists.
  - apply events_app. by rewrite Heq.
  - rewrite Heq. cbn [snd w_dbs]. apply lookup_insert_eq.
Qed.

Lemma load_files_into_db_path_unset_witness :
  w_dbs (load_files_into_db (sample_externals true) (Some sample_url) None
           PyNone ∅ sample_world).2 !! sample_url
    = Some (delete "state_abbreviations" (delete "npi_small" sample_db)).
Proof.
  exact (proj2 (proj2 (load_files_into_db_path_unset (sample_externals true) sample_url
                         PyNone ∅ sample_world sample_db eq_refl))).
Defined.

(** ** The gate: missing keys, other answers, errors of the engine *)

Lemma validate_no_context X ds kwargs w e :
  ge_DataContext X (w_fs w) = Raise e ->
  validate_analytical_output X ds kwargs w =
    (Raise e, {| w_fs := w_fs w; w_dbs := w_dbs w; w_now := w_now w;
                 w_trace := w_trace w ++ [EvDataContext] |}).
Proof.
  intros Hc. unfold validate_analytical_output, DataContext_new, bind, emit. cbn.
  by rewrite Hc.
Qed.

Lemma validate_no_batch X ds kwargs w ctx e :
  ge_DataContext X (w_fs w) = Ok ctx ->
  ge_get_batch X ctx (w_dbs w) analytical_batch_kwargs "count_providers_by_state.critical"
    = Raise e ->
  validate_analytical_output X ds kwargs w =
    (Raise e, {| w_fs := w_fs w; w_dbs := w_dbs w; w_now := w_now w;
                 w_trace := w_trace w ++
                   [EvDataContext;
                    EvGetBatch analytical_batch_kwargs "count_providers_by_state.critical"]
              |}).
Proof.
  intros Hc Hb. unfold validate_analytical_output, DataContext_new, get_batch, bind, emit.
  cbn. rewrite Hc. cbn. fold analytical_batch_kwargs. rewrite Hb. cbn.
  by rewrite <- app_assoc.
Qed.

Lemma validate_no_dag_run X ds kwargs w ctx batch :
  ge_DataContext X (w_fs w) = Ok ctx ->
  ge_get_batch X ctx (w_dbs w) analytical_batch_kwargs "count_providers_by_state.critical"
    = Ok batch ->
  kwargs !! "dag_run" = None ->
  validate_analytical_output X ds kwargs w =
    (Raise (KeyError "dag_run"),
     {| w_fs := w_fs w; w_dbs := w_dbs w; w_now := w_now w;
        w_trace := w_trace w ++
          [EvDataContext;
           EvGetBatch analytical_batch_kwargs "count_providers_by_state.critical";
           EvUtcNow] |}).
Proof.
  intros Hc Hb Hk.
  unfold validate_analytical_output, DataContext_new, get_batch, utcnow, getitem, bind, emit.
  cbn. rewrite Hc. cbn. fold analytical_batch_kwargs. rewrite Hb. cbn. rewrite Hk. cbn.
  by rewrite <- !app_assoc.
Qed.

(** X8.  Called without a [dag_run] among its keyword arguments, the gate
    never returns and never calls the validation operator; when the data
    context and the batch are there, it has fetched them and read the clock
    before it raises KeyError for the missing key. *)
Theorem validate_analytical_output_no_dag_run X ds kwargs w :
  kwargs !! "dag_run" = None ->
  run_ids (events (validate_analytical_output X ds kwargs) w) = [] ∧
  (∃ e, (validate_analytical_output X ds kwargs w).1 = Raise e) ∧
  (∀ ctx batch,
     ge_DataContext X (w_fs w) = Ok ctx ->
     ge_get_batch X ctx (w_dbs w) analytical_batch_kwargs
       "count_providers_by_state.critical" = Ok batch ->
     (validate_analytical_output X ds kwargs w).1 = Raise (KeyError "dag_run") ∧
     events (validate_analytical_output X ds kwargs) w =
       [EvDataContext;
        EvGetBatch analytical_batch_kwargs "count_providers_by_state.critical";
        EvUtcNow]).
Proof.
  intros Hk. split; [|split].
  - destruct (validate_run_ids X ds kwargs w) as [H|(dr & Hdr & _)]; [done|].
    rewrite Hk in Hdr. discriminate Hdr.
  - destruct (ge_DataContext X (w_fs w)) as [ctx|e] eqn:Hc;
      [|rewrite (validate_no_context X ds kwargs w e Hc); by eexists].
    destruct (ge_get_batch X ctx (w_dbs w) analytical_batch_kwargs
                "count_providers_by_state.critical") as [batch|e] eqn:Hb;
      [|rewrite (validate_no_batch X ds kwargs w ctx e Hc Hb); by eexists].
    rewrite (validate_no_dag_run X ds kwargs w ctx batch Hc Hb Hk). by eexists.
  - intros ctx batch Hc Hb.
    rewrite (validate_no_dag_run X ds kwargs w ctx batch Hc Hb Hk).
    split; [done|]. apply events_app.
    by rewrite (validate_no_dag_run X ds kwargs w ctx batch Hc Hb Hk).
Qed.

Lemma validate_analytical_output_no_dag_run_witness :
  (validate_analytical_output (sample_externals true) PyNone ∅ sample_built).1
    = Raise (KeyError "dag_run") ∧
  run_ids (events (validate_analytical_output (sample_externals true) PyNone ∅)
             sample_built) = [].
Proof.
  assert (Hk : (∅ : gmap string pyobj) !! "dag_run" = None) by reflexivity.
  destruct (validate_analytical_output_no_dag_run (sample_externals true) PyNone ∅
              sample_built Hk) as (Hids & _ & Hkey).
  split; [|exact Hids].
  exact (proj1 (Hkey {| context_root_directory := "/project/great_expectations" |}
                  {| batch_kwargs := analytical_batch_kwargs;
                     batch_suite := "count_providers_by_state.critical" |}
                  eq_refl eq_refl)).
Defined.

(** X9.  Once the operator has answered, the gate looks at the entry
    [success] of the answer with Python's truth test: a missing entry raises
    KeyError, a false one (False, None, 0, an empty string) raises the
    AirflowException naming the suite, any other returns None.  In each case
    the operator has been called once. *)
Theorem validate_analytical_output_truth X ds kwargs w ctx batch dr
    (results : gmap string pyobj) :
  ge_DataContext X (w_fs w) = Ok ctx ->
  ge_get_batch X ctx (w_dbs w) analytical_batch_kwargs "count_providers_by_state.critical"
    = Ok batch ->
  kwargs !! "dag_run" = Some (PyDagRun dr) ->
  ge_run_validation_operator X ctx (w_dbs w) "action_list_operator" [batch]
    (airflow_run_id dr) = Ok results ->
  run_ids (events (validate_analytical_output X ds kwargs) w) = [airflow_run_id dr] ∧
  (results !! "success" = None ->
   (validate_analytical_output X ds kwargs w).1 = Raise (KeyError "success")) ∧
  (∀ s, results !! "success" = Some s ->
        s = PyBool false ∨ s = PyNone ∨ s = PyInt 0 ∨ s = PyStr "" ->
        (validate_analytical_output X ds kwargs w).1
          = Raise (AirflowException
                     "The analytical output does not meet the expectations in the suite: count_providers_by_state.critical")) ∧
  (∀ s, results !! "success" = Some s -> truthy s = true ->
        (validate_analytical_output X ds kwargs w).1 = Ok PyNone).
Proof.
  intros Hc Hb Hk Hres.
  pose proof (validate_reaches X ds kwargs w ctx batch dr Hc Hb Hk) as Heq.
  cbn zeta in Heq. rewrite Hres in Heq.
  split.
  { destruct (validate_run_ids X ds kwargs w) as [H|(d & Hd & H)].
    - exfalso. revert H. rewrite (events_app _ _
        [EvDataContext;
         EvGetBatch analytical_batch_kwargs "count_providers_by_state.critical";
         EvUtcNow;
         EvRunValidationOperator "action_list_operator" [batch] (airflow_run_id dr)]);
        [done|].
      rewrite Heq. destruct (results !! "success") as [s|]; [|done].
      by destruct (truthy s).
    - rewrite Hk in Hd. by injection Hd as <-. }
  split_and!.
  - intros Hs. rewrite Heq. by rewrite Hs.
  - intros s Hs Hfalse. rewrite Heq, Hs.
    by destruct Hfalse as [-> | [-> | [-> | ->]]].
  - intros s Hs Ht. rewrite Heq, Hs. by rewrite Ht.
Qed.

(** An engine whose answer has [None] as its success entry. *)
Lemma validate_analytical_output_truth_witness :
  ∃ msg, (validate_analytical_output (sample_answering (<["success" := PyNone]> ∅)) PyNone
            (make_context sample_dag_run []) sample_built).1
         = Raise (AirflowException msg).
Proof.
  destruct (validate_analytical_output_truth
              (sample_answering (<["success" := PyNone]> ∅)) PyNone
              (make_context sample_dag_run []) sample_built
              {| context_root_directory := "/project/great_expectations" |}
              {| batch_kwargs := analytical_batch_kwargs;
                 batch_suite := "count_providers_by_state.critical" |}
              sample_dag_run (<["success" := PyNone]> ∅))
    as (_ & _ & Hfalse & _); try reflexivity.
  eexists. apply (Hfalse PyNone); [reflexivity|]. right. by left.
Defined.

(** X10.  The gate has no handler: an exception of the data context, of
    [get_batch] or of the validation operator is raised by the gate as it
    is, and what comes after in the function is not called. *)
Theorem validate_analytical_output_passes_errors X ds kwargs w e :
  (ge_DataContext X (w_fs w) = Raise e ->
   (validate_analytical_output X ds kwargs w).1 = Raise e ∧
   events (validate_analytical_output X ds kwargs) w = [EvDataContext]) ∧
  (∀ ctx,
     ge_DataContext X (w_fs w) = Ok ctx ->
     ge_get_batch X ctx (w_dbs w) analytical_batch_kwargs
       "count_providers_by_state.critical" = Raise e ->
     (validate_analytical_output X ds kwargs w).1 = Raise e ∧
     events (validate_analytical_output X ds kwargs) w =
       [EvDataContext;
        EvGetBatch analytical_batch_kwargs "count_providers_by_state.critical"]) ∧
  (∀ ctx batch dr,
     ge_DataContext X (w_fs w) = Ok ctx ->
     ge_get_batch X ctx (w_dbs w) analytical_batch_kwargs
       "count_providers_by_state.critical" = Ok batch ->
     kwargs !! "dag_run" = Some (PyDagRun dr) ->
     ge_run_validation_operator X ctx (w_dbs w) "action_list_operator" [batch]
       (airflow_run_id dr) = Raise e ->
     (validate_analytical_output X ds kwargs w).1 = Raise e).
Proof.
  split_and!.
  - intros Hc. rewrite (validate_no_context X ds kwargs w e Hc).
    split; [done|]. apply events_app.
    by rewrite (validate_no_context X ds kwargs w e Hc).
  - intros ctx Hc Hb. rewrite (validate_no_batch X ds kwargs w ctx e Hc Hb).
    split; [done|]. apply events_app.
    by rewrite (validate_no_batch X ds kwargs w ctx e Hc Hb).
  - intros ctx batch dr Hc Hb Hk Hres.
    rewrite (validate_reaches X ds kwargs w ctx batch dr Hc Hb Hk). cbn zeta.
    by rewrite Hres.
Qed.

(** ** Runs of the DAG: where a failure stops them, what a success publishes *)

Lemma dag_run_prefix X URL PATH dr w :
  dag_run X URL PATH dr w = run_prefix X URL PATH dr w 5.
Proof.
  rewrite dag_run_chain. cbn zeta. unfold run_prefix, chain_tasks. cbn [take foldl].
  exact eq_refl.
Qed.

Lemma run_prefix_S X URL PATH dr w (n : nat) op :
  chain_tasks X URL PATH !! n = Some op ->
  run_prefix X URL PATH dr w (S n) = run_task X URL PATH dr op (run_prefix X URL PATH dr w n).
Proof.
  intros H. unfold run_prefix. rewrite (take_S_r _ _ _ H). by rewrite foldl_app.
Qed.

Lemma summary_run_prefix_S X URL PATH dr w (n : nat) op :
  chain_tasks X URL PATH !! n = Some op ->
  summary (run_prefix X URL PATH dr w (S n)) =
    advance chain_edges (task_id op) (ok_at X URL PATH dr w n)
      (summary (run_prefix X URL PATH dr w n)).
Proof.
  intros H. rewrite (run_prefix_S _ _ _ _ _ _ _ H), summary_run_task.
  unfold ok_at. by rewrite H.
Qed.

Lemma summary_run_prefix X URL PATH dr w :
  summary (run_prefix X URL PATH dr w 5) =
    chain_summary [ok_at X URL PATH dr w 0; ok_at X URL PATH dr w 1; ok_at X URL PATH dr w 2;
                   ok_at X URL PATH dr w 3; ok_at X URL PATH dr w 4].
Proof.
  rewrite (summary_run_prefix_S X URL PATH dr w 4 (task_publish URL) eq_refl).
  rewrite (summary_run_prefix_S X URL PATH dr w 3 (task_validate_analytical_output X) eq_refl).
  rewrite (summary_run_prefix_S X URL PATH dr w 2 (task_dbt PATH) eq_refl).
  rewrite (summary_run_prefix_S X URL PATH dr w 1 task_validate_source_data_load eq_refl).
  rewrite (summary_run_prefix_S X URL PATH dr w 0 (task_load_files_into_db X URL PATH)
             eq_refl).
  generalize (ok_at X URL PATH dr w 0) (ok_at X URL PATH dr w 1) (ok_at X URL PATH dr w 2)
    (ok_at X URL PATH dr w 3) (ok_at X URL PATH dr w 4).
  intros b1 b2 b3 b4 b5. reflexivity.
Qed.

Lemma chain_summary_full b1 b2 b3 b4 b5 :
  ∃ k, (k ≤ 5)%nat ∧
       (states_of (chain_summary [b1; b2; b3; b4; b5]).1,
        (chain_summary [b1; b2; b3; b4; b5]).2) = outcome k ∧
       (∀ i : nat, (i < k)%nat -> [b1; b2; b3; b4; b5] !! i = Some true) ∧
       ((k < 5)%nat -> [b1; b2; b3; b4; b5] !! k = Some false).
Proof.
  assert (Hlt : ∀ (k : nat) (l : list bool),
    Forall (fun b => b = true) (take k l) -> (k ≤ length l)%nat ->
    ∀ i : nat, (i < k)%nat -> l !! i = Some true).
  { intros k l Hall Hlen i Hi.
    destruct (lookup_lt_is_Some_2 l i ltac:(lia)) as [b Hb].
    rewrite Hb. f_equal. eapply (proj1 (Forall_forall _ _) Hall).
    eapply list_elem_of_lookup_2. by rewrite lookup_take_lt. }
  destruct b1;
    [|exists 0%nat; split_and!;
        [lia|vm_compute; exact eq_refl|intros i Hi; lia|done]].
  destruct b2;
    [|exists 1%nat; split_and!;
        [lia|vm_compute; exact eq_refl|apply Hlt; [repeat constructor|cbn; lia]|done]].
  destruct b3;
    [|exists 2%nat; split_and!;
        [lia|vm_compute; exact eq_refl|apply Hlt; [repeat constructor|cbn; lia]|done]].
  destruct b4;
    [|exists 3%nat; split_and!;
        [lia|vm_compute; exact eq_refl|apply Hlt; [repeat constructor|cbn; lia]|done]].
  destruct b5; [exists 5%nat|exists 4%nat];
    (split_and!;
       [lia|vm_compute; exact eq_refl|apply Hlt; [repeat constructor|cbn; lia]
       |first [done|lia]]).
Qed.

(** The outcome of a run, with the executions it comes from. *)
Lemma dag_run_full X URL PATH dr w :
  ∃ k, (k ≤ 5)%nat ∧
    (states_of (r_states (dag_run X URL PATH dr w)), r_ran (dag_run X URL PATH dr w))
      = outcome k ∧
    (∀ i : nat, (i < k)%nat -> ok_at X URL PATH dr w i = true) ∧
    ((k < 5)%nat -> ok_at X URL PATH dr w k = false).
Proof.
  pose proof (summary_run_prefix X URL PATH dr w) as Hs.
  rewrite <- dag_run_prefix in Hs. unfold summary in Hs.
  assert (Hnone : ∀ i : nat, (5 ≤ i)%nat -> ok_at X URL PATH dr w i = true).
  { intros i Hi. unfold ok_at. by rewrite lookup_ge_None_2 by (cbn; lia). }
  remember (ok_at X URL PATH dr w 0) as b1 eqn:E1.
  remember (ok_at X URL PATH dr w 1) as b2 eqn:E2.
  remember (ok_at X URL PATH dr w 2) as b3 eqn:E3.
  remember (ok_at X URL PATH dr w 3) as b4 eqn:E4.
  remember (ok_at X URL PATH dr w 4) as b5 eqn:E5.
  destruct (chain_summary_full b1 b2 b3 b4 b5) as (k & Hk & Ho & Hlt & Hat).
  rewrite <- Hs in Ho. cbn [fst snd] in Ho.
  exists k. split; [exact Hk|]. split; [exact Ho|]. split.
  - intros i Hi. specialize (Hlt i Hi).
    destruct i as [|[|[|[|[|i]]]]]; [| | | | |lia];
      injection Hlt as Hlt; congruence.
  - intros Hk5. specialize (Hat Hk5).
    destruct k as [|[|[|[|[|k]]]]]; [| | | | |lia];
      injection Hat as Hat; congruence.
Qed.

Lemma outcome_stopped (st : gmap string TaskState) (ran : list string) k :
  (k ≤ 2)%nat ->
  (states_of st, ran) = outcome k ->
  st !! "task_dbt" ≠ Some success ∧
  ("task_validate_analytical_output" ∉ ran) ∧ ("task_publish" ∉ ran) ∧
  st !! "task_validate_analytical_output" = Some upstream_failed ∧
  st !! "task_publish" = Some upstream_failed.
Proof.
  intros Hk Ho. unfold outcome, states_of, chain in Ho.
  destruct k as [|[|[|k]]]; [..|lia];
    injection Ho as H1 H2 H3 H4 H5 ->; rewrite H3, H4, H5;
    (split; [done|]); (split; [by_computation|]); (split; [by_computation|]); done.
Qed.

Lemma outcome_loaded (st : gmap string TaskState) (ran : list string) k :
  (k ≤ 5)%nat ->
  (states_of st, ran) = outcome k ->
  (st !! "task_load_files_into_db" = Some success -> (1 ≤ k)%nat) ∧
  (k ≠ 1%nat -> st !! "task_validate_source_data_load" ≠ Some failed) ∧
  (k = 2%nat -> st !! "task_dbt" = Some failed) ∧
  ((2 ≤ k)%nat -> "task_dbt" ∈ ran ∧ st !! "task_validate_source_data_load" = Some success).
Proof.
  intros Hk Ho. unfold outcome, states_of, chain in Ho.
  destruct k as [|[|[|[|[|[|k]]]]]]; [..|lia];
    injection Ho as H1 H2 H3 H4 H5 ->; rewrite H1, H2, H3;
    (split; [intros; first [lia|discriminate]|]);
    (split; [intros; first [lia|discriminate]|]);
    (split; [intros; first [lia|done]|]);
    intros; first [lia|split; [by_computation|done]].
Qed.

Lemma outcome_published (st : gmap string TaskState) (ran : list string) k :
  (k ≤ 5)%nat ->
  (states_of st, ran) = outcome k ->
  st !! "task_publish" = Some success ->
  k = 5%nat ∧ st !! "task_validate_analytical_output" = Some success.
Proof.
  intros Hk Ho. unfold outcome, states_of, chain in Ho.
  destruct k as [|[|[|[|[|[|k]]]]]]; [..|lia];
    injection Ho as H1 H2 H3 H4 H5 ->; rewrite H4, H5; intros; first [done|discriminate].
Qed.

Lemma source_gate_eq X ctx w :
  execute_operator X task_validate_source_data_load ctx w =
    (Ok PyNone, {| w_fs := w_fs w; w_dbs := w_dbs w; w_now := w_now w;
                   w_trace := w_trace w ++ [EvShell ""] |}).
Proof. reflexivity. Qed.

Lemma dbt_fails X PATH dr r :
  (∀ fs dbs,
     (sh_run X ("dbt run --project-dir " +:+ str_of_option PATH) fs dbs).1.1 ≠ 0%Z) ->
  succeeded X dr (task_dbt PATH) r = false.
Proof.
  intros Hsh. unfold succeeded, task_dbt, execute_operator, bash, bind, emit.
  change (String.eqb ("dbt run --project-dir " +:+ str_of_option PATH) "") with false.
  cbn [w_fs w_dbs].
  specialize (Hsh (w_fs (r_world r)) (w_dbs (r_world r))).
  destruct (sh_run X _ _ _) as [[rc fs] dbs]. cbn [fst] in Hsh.
  unfold set_outside, ret, raise. rewrite (proj2 (Z.eqb_neq rc 0) Hsh). reflexivity.
Qed.

(** X11.  When [dbt] exits with a status other than 0, its task does not
    succeed and the run stops there: the Output-validation gate and the
    Publisher are never executed and end as upstream_failed.  If the Loader
    had succeeded, the task that is recorded as failed is the one of [dbt]
    (the Source-validation gate never fails). *)
Theorem dag_run_dbt_fails X URL PATH dr w :
  (∀ fs dbs,
     (sh_run X ("dbt run --project-dir " +:+ str_of_option PATH) fs dbs).1.1 ≠ 0%Z) ->
  let r := dag_run X URL PATH dr w in
  r_states r !! "task_dbt" ≠ Some success ∧
  ("task_validate_analytical_output" ∉ r_ran r) ∧ ("task_publish" ∉ r_ran r) ∧
  r_states r !! "task_validate_analytical_output" = Some upstream_failed ∧
  r_states r !! "task_publish" = Some upstream_failed ∧
  (r_states r !! "task_load_files_into_db" = Some success ->
   r_states r !! "task_dbt" = Some failed).
Proof.
  intros Hsh. cbn zeta.
  destruct (dag_run_full X URL PATH dr w) as (k & Hk & Ho & Hlt & Hat).
  assert (Hk2 : (k ≤ 2)%nat).
  { destruct (decide (k ≤ 2)%nat) as [|Hgt]; [done|]. exfalso.
    specialize (Hlt 2%nat ltac:(lia)). unfold ok_at in Hlt. cbn [chain_tasks lookup] in Hlt.
    change (succeeded X dr (task_dbt PATH) (run_prefix X URL PATH dr w 2) = true) in Hlt.
    by rewrite (dbt_fails X PATH dr _ Hsh) in Hlt. }
  destruct (outcome_stopped _ _ k Hk2 Ho) as (H1 & H2 & H3 & H4 & H5).
  split_and!; try done.
  intros Hload. destruct (outcome_loaded _ _ k Hk Ho) as (Hl1 & _ & Hl3 & _).
  apply Hl3. specialize (Hl1 Hload).
  destruct (decide (k = 1%nat)) as [->|Hne]; [|lia]. exfalso.
  specialize (Hat ltac:(lia)). unfold ok_at in Hat.
  change (succeeded X dr task_validate_source_data_load (run_prefix X URL PATH dr w 1)
          = false) in Hat.
  unfold succeeded in Hat. by rewrite source_gate_eq in Hat.
Qed.

(** The sample installation with a [dbt] that exits with status 1. *)
Lemma dag_run_dbt_fails_witness :
  let r := dag_run sample_broken_dbt (Some sample_url) (Some "/project")
             sample_dag_run sample_world in
  r_states r !! "task_load_files_into_db" = Some success ∧
  r_states r !! "task_dbt" = Some failed ∧
  ("task_publish" ∉ r_ran r).
Proof.
  cbn zeta.
  assert (Hload : r_states (dag_run sample_broken_dbt (Some sample_url) (Some "/project")
                              sample_dag_run sample_world)
                  !! "task_load_files_into_db" = Some success)
    by (vm_compute; exact eq_refl).
  destruct (dag_run_dbt_fails sample_broken_dbt (Some sample_url) (Some "/project")
              sample_dag_run sample_world)
    as (_ & _ & Hpub & _ & _ & Hdbt); [intros fs dbs; discriminate|].
  exact (conj Hload (conj (Hdbt Hload) Hpub)).
Defined.

(** X12.  The Source-validation gate is an empty command: executing it
    returns, and changes neither a file nor a database.  So it never fails
    in a run, and whenever the Loader has succeeded the Transformer is
    executed. *)
Theorem source_validation_never_blocks X URL PATH dr w :
  (∀ ctx w0,
     execute_operator X task_validate_source_data_load ctx w0 =
       (Ok PyNone, {| w_fs := w_fs w0; w_dbs := w_dbs w0; w_now := w_now w0;
                      w_trace := w_trace w0 ++ [EvShell ""] |})) ∧
  r_states (dag_run X URL PATH dr w) !! "task_validate_source_data_load" ≠ Some failed ∧
  (r_states (dag_run X URL PATH dr w) !! "task_load_files_into_db" = Some success ->
   r_states (dag_run X URL PATH dr w) !! "task_validate_source_data_load" = Some success ∧
   "task_dbt" ∈ r_ran (dag_run X URL PATH dr w)).
Proof.
  split; [intros ctx w0; apply source_gate_eq|].
  destruct (dag_run_full X URL PATH dr w) as (k & Hk & Ho & Hlt & Hat).
  assert (Hne : k ≠ 1%nat).
  { intros ->. specialize (Hat ltac:(lia)). unfold ok_at in Hat.
    change (succeeded X dr task_validate_source_data_load (run_prefix X URL PATH dr w 1)
            = false) in Hat.
    unfold succeeded in Hat. by rewrite source_gate_eq in Hat. }
  destruct (outcome_loaded _ _ k Hk Ho) as (Hl1 & Hl2 & _ & Hl4).
  split; [by apply Hl2|].
  intros Hload. specialize (Hl1 Hload).
  destruct (Hl4 ltac:(lia)) as [Hran Hst]. by split.
Qed.

Lemma run_task_success_inv X URL PATH dr op r :
  r_states (run_task X URL PATH dr op r) !! task_id op = Some success ->
  ∃ v, execute_operator X op (make_context dr (r_xcom r)) (r_world r)
       = (Ok v, r_world (run_task X URL PATH dr op r)).
Proof.
  unfold run_task.
  destruct (all_success _ _);
    [destruct (execute_operator _ _ _ _) as [[v|e] w']|];
    cbn [r_states r_world]; rewrite lookup_insert_eq; intros H;
    first [discriminate H | by eexists].
Qed.

(** The gate writes neither a file nor a database. *)
Lemma validate_outside X ds kwargs w :
  w_fs (validate_analytical_output X ds kwargs w).2 = w_fs w ∧
  w_dbs (validate_analytical_output X ds kwargs w).2 = w_dbs w.
Proof.
  unfold validate_analytical_output, DataContext_new, get_batch, utcnow,
    run_validation_operator, getitem, get_run_id, get_start_date, bind, emit.
  cbn.
  destruct (ge_DataContext X (w_fs w)) as [ctx|e]; [|done]. cbn.
  destruct (ge_get_batch X ctx (w_dbs w) _ _) as [batch|e]; [|done]. cbn.
  destruct (kwargs !! "dag_run") as [[| | | |dr|]|]; try done. cbn.
  destruct (ge_run_validation_operator _ _ _ _ _ _) as [results|e]; [|done]. cbn.
  destruct (results !! "success") as [s|]; [|done]. cbn.
  by destruct (truthy s).
Qed.

Lemma gate_keeps_databases X URL PATH dr r :
  w_dbs (r_world (run_task X URL PATH dr (task_validate_analytical_output X) r))
  = w_dbs (r_world r).
Proof.
  unfold run_task. destruct (all_success _ _); [|done].
  destruct (execute_operator _ _ _ _) as [res w'] eqn:Hex.
  assert (Hw : w_dbs w' = w_dbs (r_world r)).
  { apply (f_equal snd) in Hex. cbn [snd] in Hex. rewrite <- Hex.
    unfold task_validate_analytical_output, execute_operator, call.
    rewrite make_context_ds. apply validate_outside. }
  by destruct res.
Qed.

Lemma publish_task_success X URL PATH dr r :
  r_states (run_task X URL PATH dr (task_publish URL) r) !! "task_publish" = Some success ->
  ∃ url (db : Database) t,
    URL = Some url ∧ w_dbs (r_world r) !! url = Some db ∧
    db !! "count_providers_by_state" = Some t ∧
    w_dbs (r_world (run_task X URL PATH dr (task_publish URL) r)) !! url
      = Some (<["prod_count_providers_by_state" := t]>
                (delete "count_providers_by_state"
                   (delete "prod_count_providers_by_state" db))).
Proof.
  intros Hpub.
  apply (run_task_success_inv X URL PATH dr (task_publish URL) r) in Hpub as [v Hex].
  unfold task_publish at 1, execute_operator, call in Hex.
  rewrite bool_decide_eq_true_2 in Hex by done.
  assert (Hok : (publish_to_prod URL (r_world r)).1 = Ok v) by (by rewrite Hex).
  destruct (publish_Ok_inv URL (r_world r) v Hok) as (url & db & t & -> & Hdb & Hsrc & Hdeps).
  rewrite (publish_Ok_eq url (r_world r) db t Hdb Hsrc Hdeps) in Hex.
  apply (f_equal snd) in Hex. cbn [snd] in Hex. rewrite <- Hex. cbn [w_dbs].
  exists url, db, t.
  split; [reflexivity|]. split; [exact Hdb|]. split; [exact Hsrc|].
  apply lookup_insert_eq.
Qed.

(** X13.  In a run whose Publisher succeeded, the Output-validation gate
    had succeeded, and the production table is the table that
    [count_providers_by_state] named in the database as it was when the gate
    started ([run_prefix ... 3] is the run at that point): what is published
    is what was validated. *)
Theorem dag_run_publishes_validated X URL PATH dr w :
  let r := dag_run X URL PATH dr w in
  let at_gate := r_world (run_prefix X URL PATH dr w 3) in
  r_states r !! "task_publish" = Some success ->
  r_states r !! "task_validate_analytical_output" = Some success ∧
  ∃ url (db db' : Database) t,
    URL = Some url ∧
    w_dbs at_gate !! url = Some db ∧
    db !! "count_providers_by_state" = Some t ∧
    w_dbs (r_world r) !! url = Some db' ∧
    db' !! "prod_count_providers_by_state" = Some t ∧
    db' !! "count_providers_by_state" = None.
Proof.
  cbn zeta. intros Hpub. split.
  { destruct (dag_run_full X URL PATH dr w) as (k & Hk & Ho & _).
    by destruct (outcome_published _ _ k Hk Ho Hpub). }
  pose proof (gate_keeps_databases X URL PATH dr (run_prefix X URL PATH dr w 3)) as Hgate.
  rewrite <- (run_prefix_S X URL PATH dr w 3 (task_validate_analytical_output X) eq_refl)
    in Hgate.
  rewrite dag_run_prefix in Hpub |- *.
  rewrite (run_prefix_S X URL PATH dr w 4 (task_publish URL) eq_refl) in Hpub |- *.
  destruct (publish_task_success X URL PATH dr _ Hpub) as (url & db & t & Hu & Hdb & Hsrc & Hw).
  exists url, db,
    (<["prod_count_providers_by_state" := t]>
       (delete "count_providers_by_state" (delete "prod_count_providers_by_state" db))), t.
  rewrite <- Hgate.
  split; [exact Hu|]. split; [exact Hdb|]. split; [exact Hsrc|]. split; [exact Hw|].
  split; [apply lookup_insert_eq|].
  rewrite lookup_insert_ne by discriminate. apply lookup_delete_eq.
Qed.

(** A run of the sample installation in which every task succeeds. *)
Lemma dag_run_publishes_validated_witness :
  let r := dag_run (sample_externals true) (Some sample_url) (Some "/project")
             sample_dag_run sample_world in
  r_states r !! "task_publish" = Some success ∧
  r_states r !! "task_validate_analytical_output" = Some success.
Proof.
  cbn zeta.
  assert (Hpub : r_states (dag_run (sample_externals true) (Some sample_url)
                             (Some "/project") sample_dag_run sample_world)
                 !! "task_publish" = Some success)
    by (vm_compute; exact eq_refl).
  split; [exact Hpub|].
  exact (proj1 (dag_run_publishes_validated (sample_externals true) (Some sample_url)
                  (Some "/project") sample_dag_run sample_world Hpub)).
Defined.

(** ** The loader's renaming *)

Lemma put_last_keys k v (acc : list (string * cell)) :
  (put_last k v acc).*1 = once acc.*1 k.
Proof.
  unfold once. induction acc as [|[k' v'] acc IH]; [done|].
  cbn [put_last]. destruct (String.eqb_spec k' k) as [->|Hne].
  - cbn. by rewrite bool_decide_eq_true_2 by left.
  - rewrite !fmap_cons. cbn [fst]. rewrite IH.
    destruct (decide (k ∈ acc.*1)) as [Hin|Hin].
    + rewrite !bool_decide_eq_true_2; [done|by right|done].
    + rewrite !bool_decide_eq_false_2; [done| |done].
      intros [?|?]%elem_of_cons; [by subst|done].
Qed.

Lemma by_label_keys (kvs acc : list (string * cell)) :
  (foldl (fun acc kv => put_last kv.1 kv.2 acc) acc kvs).*1 = foldl once acc.*1 kvs.*1.
Proof.
  revert acc. induction kvs as [|[k v] kvs IH]; intros acc; [done|].
  cbn [foldl fst snd]. rewrite IH, put_last_keys. done.
Qed.

Lemma once_spec (l seen : list string) :
  NoDup seen ->
  NoDup (foldl once seen l) ∧ ∀ x, x ∈ foldl once seen l <-> x ∈ seen ∨ x ∈ l.
Proof.
  revert seen. induction l as [|k l IH]; intros seen Hnd.
  - split; [done|]. intros x. rewrite elem_of_nil. tauto.
  - cbn [foldl]. unfold once at 2 4.
    destruct (decide (k ∈ seen)) as [Hin|Hin].
    + rewrite bool_decide_eq_true_2 by done.
      destruct (IH seen Hnd) as [H1 H2]. split; [done|].
      intros x. rewrite H2, elem_of_cons. split; [tauto|].
      intros [?|[->|?]]; tauto.
    + rewrite bool_decide_eq_false_2 by done.
      destruct (IH (seen ++ [k])) as [H1 H2].
      { apply NoDup_app. split_and!; [done| |apply NoDup_singleton].
        intros x Hx ->%list_elem_of_singleton. done. }
      split; [done|].
      intros x. rewrite H2, elem_of_app, list_elem_of_singleton, elem_of_cons. tauto.
Qed.

(** The table of a frame has each label once, and fewer columns than the
    frame when two labels are the same. *)
Lemma table_of_frame_columns df :
  NoDup (t_columns (table_of_frame df false)) ∧
  (∀ x, x ∈ t_columns (table_of_frame df false) <-> x ∈ df_columns df) ∧
  (¬ NoDup (df_columns df) ->
   (length (t_columns (table_of_frame df false)) < length (df_columns df))%nat).
Proof.
  unfold table_of_frame, by_label. cbn [t_columns].
  rewrite by_label_keys, fst_zip by (by rewrite length_replicate). cbn [fmap list_fmap].
  destruct (once_spec (df_columns df) [] (NoDup_nil_2)) as [Hnd Hin].
  split; [exact Hnd|]. split.
  { intros x. rewrite Hin, elem_of_nil. tauto. }
  intros Hdup.
  destruct (decide (length (foldl once [] (df_columns df)) < length (df_columns df))%nat)
    as [Hlt|Hlen]; [exact Hlt|].
  exfalso. apply Hdup. clear Hdup.
  assert (Hperm : foldl once [] (df_columns df) ≡ₚ df_columns df).
  { apply submseteq_length_Permutation; [|lia].
    apply NoDup_submseteq; [exact Hnd|].
    intros x. rewrite Hin, elem_of_nil. tauto. }
  by rewrite <- Hperm.
Qed.

(** X14.  The renaming of [npi_small]'s columns does not keep labels apart:
    every label is replaced by its lower-cased form, the records staying as
    they are, so that two columns whose labels differ only in case are
    handed to [to_sql] under one and the same name, and the table written
    has fewer columns than the file.  Labels that are distinct after
    lower-casing stay distinct. *)
Theorem rename_lower_merges X df (i j : nat) ci cj :
  df_columns df !! i = Some ci ->
  df_columns df !! j = Some cj ->
  let renamed := rename_columns (dict_comprehension (str_lower X) (df_columns df)) df in
  df_rows renamed = df_rows df ∧
  df_columns renamed !! i = Some (str_lower X ci) ∧
  df_columns renamed !! j = Some (str_lower X cj) ∧
  (str_lower X ci = str_lower X cj ->
   df_columns renamed !! i = df_columns renamed !! j ∧
   (i ≠ j ->
    (length (t_columns (table_of_frame renamed false)) < length (df_columns df))%nat)) ∧
  (NoDup (str_lower X <$> df_columns df) -> NoDup (df_columns renamed)) ∧
  NoDup (t_columns (table_of_frame renamed false)).
Proof.
  intros Hi Hj. cbn zeta. rewrite rename_columns_lower.
  change (df_columns (lower_columns X df)) with (str_lower X <$> df_columns df).
  change (df_rows (lower_columns X df)) with (df_rows df).
  rewrite !list_lookup_fmap, Hi, Hj. cbn [fmap option_fmap option_map].
  split_and!; try done.
  - intros Heq. split; [by rewrite Heq|]. intros Hne.
    destruct (table_of_frame_columns (lower_columns X df)) as (_ & _ & Hlt).
    cbn [lower_columns df_columns] in Hlt. rewrite length_fmap in Hlt.
    apply Hlt. intros Hnd.
    apply Hne, (NoDup_lookup _ i j (str_lower X ci) Hnd).
    + by rewrite list_lookup_fmap, Hi.
    + by rewrite list_lookup_fmap, Hj, Heq.
  - apply table_of_frame_columns.
Qed.

(** A file with the header NPI,npi: one column is written. *)
Lemma rename_lower_merges_witness :
  (length (t_columns (table_of_frame
     (rename_columns
        (dict_comprehension (str_lower (sample_externals true)) ["NPI"; "npi"])
        {| df_columns := ["NPI"; "npi"]; df_index := [CInt 0];
           df_rows := [[CInt 1; CInt 2]] |}) false)) < 2)%nat.
Proof.
  refine (proj2 (proj1 (proj2 (proj2 (proj2
           (rename_lower_merges (sample_externals true)
              {| df_columns := ["NPI"; "npi"]; df_index := [CInt 0];
                 df_rows := [[CInt 1; CInt 2]] |} 0 1 "NPI" "npi" eq_refl eq_refl))))
           eq_refl) _).
  discriminate.
Defined.
